(** * Traffic prediction service (ml-service/main.py)

    A shallow embedding of the prediction pipeline of [ml-service/main.py]:
    the module globals [traffic_model] and [scaler], the Redis server, the
    model directory and the clock are fields of an explicit [World]; every
    function of the module is a computation in a state-and-exception monad
    over that world.

    Conventions of the embedding.
    - Python floats are exact rationals ([Q]); equalities between computed
      floats are stated with [==].
    - A [datetime] is the number of microseconds since 0001-01-01T00:00:00.
    - scikit-learn, numpy's random generator and joblib are libraries, not
      code of the module: fitted objects are records of their [transform] /
      [predict] behaviour, and fitting is a field of [Sklearn].
    - The Redis client may raise on any command ([redis_fault]); a client
      whose [setex] has no keyword [ex], as redis-py's, raises a [TypeError]
      on the cache write of [predict_traffic]: [redis_fault w SETEX] is then
      [Some TypeError].
    - The model directory is writable and a file that is there unpickles:
      [os.makedirs] and [joblib.dump] succeed, [joblib.load] raises for a
      missing file only.
    - JSON numbers are in the range of binary64.
    - An entry of a Redis list is represented by what [json.loads] makes of
      it ([entry]); stored documents are flat (their fields are scalars).
    - Attributes are looked up at run time: a [TrafficData] has its five
      declared fields, and an instance of a subclass may carry more.
    - [logger] calls have no effect on any value and are left out.

    The file has the module first, then the definitions the properties are
    stated with and a few sample worlds, then the properties. *)

From Stdlib Require Import ZArith QArith Qabs Lqa Lia List Bool.
From stdpp Require Import base gmap strings.
Import ListNotations.

Open Scope string_scope.
Open Scope Z_scope.

(** ** Python values *)

Inductive value :=
| VNone
| VBool (b : bool)
| VInt (z : Z)
| VFloat (q : Q)
| VStr (s : string)
| VDatetime (t : Z).

(** What [json.loads] makes of one stored entry. *)
Inductive entry :=
| Malformed                                (* json.loads raises *)
| Document (d : gmap string value)         (* a JSON object, a [dict] *)
| NotADocument (v : value).                (* valid JSON, but no [dict] *)

(** ** Exceptions *)

Inductive exn :=
| AttributeError (attr : string)
| TypeError
| ValueError
| OverflowError
| FileNotFoundError (path : string)
| RedisError
| HTTPException (status_code : Z) (detail : detail)
with detail :=
| Detail (s : string)
| DetailOf (prefix : string) (cause : exn).   (* f"{prefix}{str(cause)}" *)

Inductive result (A : Type) :=
| Ok (a : A)
| Raise (e : exn).
Arguments Ok {A} a.
Arguments Raise {A} e.

(** ** Records of the module *)

(** [class TrafficData(BaseModel)]: the five declared fields.  Attribute
    access is resolved at run time, so an instance of a subclass may carry
    further attributes ([td_extra]); an instance of [TrafficData] itself
    has none. *)
Record TrafficData := {
  segment_id : string;
  current_speed : Q;
  congestion_factor : Q;
  traffic_density : Q;
  timestamp : Z;
  td_extra : gmap string value
}.

Record TrafficPrediction := {
  p_segment_id : string;
  predicted_speed : Q;
  predicted_congestion : Q;
  prediction_time : Z;
  valid_until : Z;
  confidence : Q
}.

(** Fitted scikit-learn objects, by their behaviour. *)
Record Scaler := { transform : list value -> result (list Q) }.
Record Estimator := { predict : list Q -> result Q }.

(** ** The world *)

Inductive redis_value :=
| RList (l : list entry)
| RString (payload : TrafficPrediction) (ex : Z).

Inductive command := LRANGE | SETEX | SCAN.

Inductive file (A : Type) :=
| Missing
| Stored (a : A).
Arguments Missing {A}.
Arguments Stored {A} a.

Record World := {
  traffic_model : option Estimator;          (* module global *)
  scaler : option Scaler;                    (* module global *)
  keyspace : gmap string redis_value;        (* the Redis server *)
  redis_fault : command -> option exn;       (* commands that raise *)
  model_pkl : file Estimator;                (* /app/models/traffic_prediction_model.pkl *)
  scaler_pkl : file Scaler;                  (* /app/models/scaler.pkl *)
  clock : nat -> Z;                          (* successive readings of the clock *)
  ticks : nat
}.

(** ** The state-and-exception monad

    A raised exception leaves the world as it was when it was raised:
    Python does not roll effects back. *)

Definition M (A : Type) : Type := World -> result A * World.

Definition ret {A} (a : A) : M A := fun w => (Ok a, w).
Definition raise {A} (e : exn) : M A := fun w => (Raise e, w).
Definition bind {A B} (m : M A) (k : A -> M B) : M B :=
  fun w => match m w with
           | (Ok a, w') => k a w'
           | (Raise e, w') => (Raise e, w')
           end.
Definition lift {A} (r : result A) : M A := fun w => (r, w).

(** [try: m except <catches> as e: handler e] *)
Definition try_except {A} (m : M A) (catches : exn -> bool) (handler : exn -> M A) : M A :=
  fun w => match m w with
           | (Ok a, w') => (Ok a, w')
           | (Raise e, w') => if catches e then handler e w' else (Raise e, w')
           end.

Declare Scope py_scope.
Delimit Scope py_scope with py.
Notation "x <- m ;; k" := (bind m (fun x => k))
  (at level 100, m at next level, right associativity) : py_scope.
Notation "m ;;; k" := (bind m (fun _ => k))
  (at level 100, right associativity) : py_scope.
Open Scope py_scope.

(** Every exception of [exn] derives from [Exception]. *)
Definition is_Exception (e : exn) : bool := true.

Definition is_FileNotFoundError (e : exn) : bool :=
  match e with FileNotFoundError _ => true | _ => false end.

Definition is_HTTPException (e : exn) : bool :=
  match e with HTTPException _ _ => true | _ => false end.

(** ** World accessors *)

Definition set_traffic_model (m : Estimator) : M unit := fun w =>
  (Ok tt, {| traffic_model := Some m; scaler := scaler w; keyspace := keyspace w;
             redis_fault := redis_fault w; model_pkl := model_pkl w;
             scaler_pkl := scaler_pkl w; clock := clock w; ticks := ticks w |}).

Definition set_scaler (s : Scaler) : M unit := fun w =>
  (Ok tt, {| traffic_model := traffic_model w; scaler := Some s; keyspace := keyspace w;
             redis_fault := redis_fault w; model_pkl := model_pkl w;
             scaler_pkl := scaler_pkl w; clock := clock w; ticks := ticks w |}).

Definition set_keyspace (k : gmap string redis_value) (w : World) : World :=
  {| traffic_model := traffic_model w; scaler := scaler w; keyspace := k;
     redis_fault := redis_fault w; model_pkl := model_pkl w;
     scaler_pkl := scaler_pkl w; clock := clock w; ticks := ticks w |}.

(** [datetime.now()] *)
Definition datetime_now : M Z := fun w =>
  (Ok (clock w (ticks w)),
   {| traffic_model := traffic_model w; scaler := scaler w; keyspace := keyspace w;
      redis_fault := redis_fault w; model_pkl := model_pkl w;
      scaler_pkl := scaler_pkl w; clock := clock w; ticks := S (ticks w) |}).

(** [joblib.dump(model, '/app/models/traffic_prediction_model.pkl')], the
    directory being writable. *)
Definition joblib_dump_model (m : Estimator) : M unit := fun w =>
  (Ok tt, {| traffic_model := traffic_model w; scaler := scaler w; keyspace := keyspace w;
             redis_fault := redis_fault w; model_pkl := Stored m;
             scaler_pkl := scaler_pkl w; clock := clock w; ticks := ticks w |}).

(** [joblib.dump(scaler, '/app/models/scaler.pkl')], the directory being
    writable. *)
Definition joblib_dump_scaler (s : Scaler) : M unit := fun w =>
  (Ok tt, {| traffic_model := traffic_model w; scaler := scaler w; keyspace := keyspace w;
             redis_fault := redis_fault w; model_pkl := model_pkl w;
             scaler_pkl := Stored s; clock := clock w; ticks := ticks w |}).

Definition model_path : string := "/app/models/traffic_prediction_model.pkl".
Definition scaler_path : string := "/app/models/scaler.pkl".

(** [joblib.load(path)], a file that is there being readable. *)
Definition joblib_load_model : M Estimator := fun w =>
  match model_pkl w with
  | Stored m => (Ok m, w)
  | Missing => (Raise (FileNotFoundError model_path), w)
  end.

Definition joblib_load_scaler : M Scaler := fun w =>
  match scaler_pkl w with
  | Stored s => (Ok s, w)
  | Missing => (Raise (FileNotFoundError scaler_path), w)
  end.

(** ** The Redis client *)

(** [redis_client.lrange(key, 0, -1)]: the whole list, [[]] for an absent
    key, an error for a key that holds a string. *)
Definition redis_lrange (key : string) : M (list entry) := fun w =>
  match redis_fault w LRANGE with
  | Some e => (Raise e, w)
  | None =>
      match keyspace w !! key with
      | None => (Ok [], w)
      | Some (RList l) => (Ok l, w)
      | Some (RString _ _) => (Raise RedisError, w)
      end
  end.

(** [redis_client.setex(key, payload, ex=ex)], the call as the module
    writes it.  Whether the client takes it is the client's affair: one that
    knows no keyword [ex] raises before anything is sent, which is
    [redis_fault w SETEX = Some TypeError]. *)
Definition redis_setex (key : string) (payload : TrafficPrediction) (ex : Z) : M unit :=
  fun w =>
  match redis_fault w SETEX with
  | Some e => (Raise e, w)
  | None => (Ok tt, set_keyspace (<[key := RString payload ex]> (keyspace w)) w)
  end.

(** [redis_client.scan_iter(match=prefix + "*")] *)
Definition redis_scan_iter (pre : string) : M (list string) := fun w =>
  match redis_fault w SCAN with
  | Some e => (Raise e, w)
  | None => (Ok (filter (fun k => String.prefix pre k = true)
                        (map fst (map_to_list (keyspace w)))), w)
  end.

(** ** datetime *)

Definition us_per_minute : Z := 60000000.
Definition us_per_hour : Z := 60 * us_per_minute.
Definition us_per_day : Z := 24 * us_per_hour.

Definition hour (t : Z) : Z := (t / us_per_hour) mod 24.
(** 0001-01-01 is a Monday, and Monday is 0. *)
Definition weekday (t : Z) : Z := (t / us_per_day) mod 7.

Definition timedelta_minutes (n : Z) : Z := n * us_per_minute.

(** [datetime.max] is 9999-12-31T23:59:59.999999, day 3652059. *)
Definition datetime_bound : Z := 3652059 * us_per_day.

(** [t + delta] on a [datetime] *)
Definition datetime_add (t delta : Z) : result Z :=
  let r := t + delta in
  if (0 <=? r) && (r <? datetime_bound) then Ok r else Raise OverflowError.

(** ** Attribute access on a [TrafficData] *)

Definition getattr (d : TrafficData) (name : string) : result value :=
  if String.eqb name "segment_id" then Ok (VStr (segment_id d))
  else if String.eqb name "current_speed" then Ok (VFloat (current_speed d))
  else if String.eqb name "congestion_factor" then Ok (VFloat (congestion_factor d))
  else if String.eqb name "traffic_density" then Ok (VFloat (traffic_density d))
  else if String.eqb name "timestamp" then Ok (VDatetime (timestamp d))
  else match td_extra d !! name with
       | Some v => Ok v
       | None => Raise (AttributeError name)
       end.

(** ** Numbers *)

Definition Qltb (x y : Q) : bool := negb (Qle_bool y x).

(** Python's [max(a, b)] and [min(a, b)]: the first argument wins a tie. *)
Definition py_max (a b : Q) : Q := if Qltb a b then b else a.
Definition py_min (a b : Q) : Q := if Qltb b a then b else a.

(** What numpy makes of a scalar put in a float array. *)
Definition as_float (v : value) : option Q :=
  match v with
  | VBool b => Some (if b then 1 else 0)%Q
  | VInt z => Some (inject_Z z)
  | VFloat q => Some q
  | VNone | VStr _ | VDatetime _ => None
  end.

Fixpoint as_floats (vs : list value) : option (list Q) :=
  match vs with
  | [] => Some []
  | v :: rest =>
      match as_float v, as_floats rest with
      | Some q, Some qs => Some (q :: qs)
      | _, _ => None
      end
  end.

Definition Qsum (qs : list Q) : Q := fold_left Qplus qs 0%Q.

(** [np.mean(values)] on a list of scalars; the module never calls it on an
    empty list. *)
Definition np_mean (values : list value) : result Q :=
  match as_floats values with
  | Some qs => Ok (Qsum qs / inject_Z (Z.of_nat (length qs)))%Q
  | None => Raise TypeError
  end.

(** ** predict_traffic *)

Definition default_congestion : Q := 3 # 10.
Definition base_speed : Q := 50.

(** One turn of the loop of lines 171-176: [json.loads], then
    [.get('congestion_factor', 0.3)], appended; any exception skips the
    entry. *)
Definition append_congestion (congestion_values : list value) (data : entry) : list value :=
  match data with
  | Malformed => congestion_values
  | Document d => congestion_values ++ [default (VFloat default_congestion) (d !! "congestion_factor")]
  | NotADocument _ => congestion_values
  end.

(** Lines 168-178. *)
Definition avg_historical_congestion (historical_data : list entry) : result Q :=
  match historical_data with
  | [] => Ok default_congestion
  | _ :: _ =>
      let congestion_values := fold_left append_congestion historical_data [] in
      match congestion_values with
      | [] => Ok default_congestion
      | _ :: _ => np_mean congestion_values
      end
  end.

(** Line 197. *)
Definition congestion_of_speed (predicted_speed : Q) : Q :=
  py_max 0 (py_min 1 ((base_speed - predicted_speed) / base_speed))%Q.

(** Line 206. *)
Definition confidence_of_congestion (predicted_congestion : Q) : Q :=
  py_min (95 # 100) (py_max (1 # 2) (1 - Qabs (predicted_congestion - (1 # 2))))%Q.

Definition global_scaler : M Scaler := fun w =>
  match scaler w with
  | Some s => (Ok s, w)
  | None => (Raise (AttributeError "transform"), w)
  end.

Definition global_traffic_model : M Estimator := fun w =>
  match traffic_model w with
  | Some m => (Ok m, w)
  | None => (Raise (AttributeError "predict"), w)
  end.

(** Lines 159-207: from reading the clock to the [TrafficPrediction]. *)
Definition make_prediction (segment_id : string) (current_data : TrafficData)
  : M TrafficPrediction :=
  current_time <- datetime_now ;;
  let hour_of_day := hour current_time in
  let day_of_week := weekday current_time in
  let historical_key := "historical_traffic:" ++ segment_id in
  historical_data <- redis_lrange historical_key ;;
  avg <- lift (avg_historical_congestion historical_data) ;;
  weather_impact <- lift (getattr current_data "weather_impact") ;;
  let features := [VInt hour_of_day; VInt day_of_week; weather_impact;
                   VFloat 50; VFloat avg] in
  sc <- global_scaler ;;
  features_scaled <- lift (transform sc features) ;;
  model <- global_traffic_model ;;
  speed <- lift (predict model features_scaled) ;;
  let congestion := congestion_of_speed speed in
  until <- lift (datetime_add current_time (timedelta_minutes 30)) ;;
  ret {| p_segment_id := segment_id;
         predicted_speed := speed;
         predicted_congestion := congestion;
         prediction_time := current_time;
         valid_until := until;
         confidence := confidence_of_congestion congestion |}.

(** Lines 157-219: the body of the [try]. *)
Definition predict_traffic_try (segment_id : string) (current_data : TrafficData)
  : M TrafficPrediction :=
  prediction <- make_prediction segment_id current_data ;;
  let prediction_key := "prediction:" ++ segment_id in
  redis_setex prediction_key prediction 1800 ;;;
  ret prediction.

Definition predict_traffic (segment_id : string) (current_data : TrafficData)
  : M TrafficPrediction :=
  fun w =>
  match traffic_model w, scaler w with
  | Some _, Some _ =>
      try_except (predict_traffic_try segment_id current_data) is_Exception
        (fun e => raise (HTTPException 500 (DetailOf "Prediction failed: " e))) w
  | _, _ => raise (HTTPException 500 (Detail "ML model not loaded")) w
  end.

(** ** Endpoints *)

Definition predict_traffic_endpoint (traffic_data : TrafficData) : M TrafficPrediction :=
  try_except (predict_traffic (segment_id traffic_data) traffic_data) is_Exception
    (fun e => if is_HTTPException e then raise e
              else raise (HTTPException 500 (Detail "Internal server error"))).

Record BatchResponse := { predictions : list TrafficPrediction; count : nat }.

(** The [for] loop of lines 254-256, [predictions] being the list built so far. *)
Fixpoint batch_loop (traffic_data_list : list TrafficData)
  (predictions : list TrafficPrediction) : M (list TrafficPrediction) :=
  match traffic_data_list with
  | [] => ret predictions
  | traffic_data :: rest =>
      prediction <- predict_traffic (segment_id traffic_data) traffic_data ;;
      batch_loop rest (predictions ++ [prediction])
  end.

Definition predict_batch_traffic (traffic_data_list : list TrafficData) : M BatchResponse :=
  try_except
    (predictions <- batch_loop traffic_data_list [] ;;
     ret {| predictions := predictions; count := length predictions |})
    is_Exception
    (fun e => raise (HTTPException 500 (DetailOf "Batch prediction failed: " e))).

(** ** Training *)

(** scikit-learn and numpy's random generator. *)
Record Sklearn := {
  (* np.random.seed(seed), then the five draws of n values each
     (hour_of_day, day_of_week, weather_impact, base_speed_limit,
     historical_congestion), sample by sample *)
  random_sample : Z -> nat -> list (Z * Z * Q * Q * Q);
  (* train_test_split(X, y, test_size, random_state) *)
  train_test_split : list (list Q) -> list Q -> Q -> Z ->
                     list (list Q) * list (list Q) * list Q * list Q;
  (* StandardScaler().fit(X) *)
  StandardScaler_fit : list (list Q) -> Scaler;
  (* RandomForestRegressor(n_estimators, random_state).fit(X, y) *)
  RandomForestRegressor_fit : Z -> Z -> list (list Q) -> list Q -> Estimator
}.

(** Lines 115-119, for one sample. *)
Definition sample_speed (r : Z * Z * Q * Q * Q) : Q :=
  let '(hour_of_day, day_of_week, weather_impact, base_speed_limit, historical_congestion) := r in
  let rush_hour_factor : Q :=
    if ((7 <=? hour_of_day) && (hour_of_day <=? 9)) ||
       ((16 <=? hour_of_day) && (hour_of_day <=? 19))
    then (7 # 10)%Q else 1%Q in
  let weekend_factor : Q := if 5 <=? day_of_week then (12 # 10)%Q else 1%Q in
  (base_speed_limit * (1 - historical_congestion * (1 # 2)) * rush_hour_factor * weekend_factor
   * (1 - weather_impact * (3 # 10)))%Q.

(** Line 121, for one sample. *)
Definition sample_features (r : Z * Z * Q * Q * Q) : list Q :=
  let '(hour_of_day, day_of_week, weather_impact, base_speed_limit, historical_congestion) := r in
  [inject_Z hour_of_day; inject_Z day_of_week; weather_impact; base_speed_limit;
   historical_congestion].

Fixpoint transform_rows (sc : Scaler) (X : list (list Q)) : result (list (list Q)) :=
  match X with
  | [] => Ok []
  | row :: rest =>
      match transform sc (map VFloat row), transform_rows sc rest with
      | Ok r, Ok rs => Ok (r :: rs)
      | Raise e, _ => Raise e
      | _, Raise e => Raise e
      end
  end.

(** [model.score(X, y)] predicts every row; its value only goes to the log. *)
Fixpoint score (model : Estimator) (X : list (list Q)) : result unit :=
  match X with
  | [] => Ok tt
  | row :: rest =>
      match predict model row with
      | Ok _ => score model rest
      | Raise e => Raise e
      end
  end.

(** One row of [training_data] (lines 274-281). *)
Record TrainingRow := {
  row_hour_of_day : Z;
  row_day_of_week : Z;
  row_weather_impact : value;
  row_base_speed_limit : Q;
  row_historical_congestion : value;
  row_current_speed : value
}.

Record TrainResponse := { message : string; samples_used : nat }.

(** The inner loop of lines 271-283. *)
Fixpoint collect_entries (data_list : list entry) (training_data : list TrainingRow)
  : M (list TrainingRow) :=
  match data_list with
  | [] => ret training_data
  | Malformed :: rest => collect_entries rest training_data
  | Document d :: rest =>
      now1 <- datetime_now ;;
      now2 <- datetime_now ;;
      collect_entries rest
        (training_data ++
           [{| row_hour_of_day := hour now1;
               row_day_of_week := weekday now2;
               row_weather_impact := default (VInt 0) (d !! "weather_impact");
               row_base_speed_limit := 50;
               row_historical_congestion :=
                 default (VFloat default_congestion) (d !! "congestion_factor");
               row_current_speed := default (VFloat 25) (d !! "current_speed") |}])
  | NotADocument _ :: rest =>
      (* the two clock readings come before the failing [.get] *)
      datetime_now ;;; datetime_now ;;; collect_entries rest training_data
  end.

(** The outer loop of lines 269-283. *)
Fixpoint collect_keys (keys : list string) (training_data : list TrainingRow)
  : M (list TrainingRow) :=
  match keys with
  | [] => ret training_data
  | key :: rest =>
      data_list <- redis_lrange key ;;
      training_data' <- collect_entries data_list training_data ;;
      collect_keys rest training_data'
  end.

(** Lines 267-283: the rows gathered from every history list. *)
Definition collect_training_data : M (list TrainingRow) :=
  keys <- redis_scan_iter "historical_traffic:" ;;
  collect_keys keys [].

Section Training.

Variable sk : Sklearn.

(** Lines 100-147.  [model] and [scaler] are locals of the function. *)
Definition train_new_model : M (Estimator * Scaler) :=
  let samples := random_sample sk 42 1000 in
  let X := map sample_features samples in
  let y := map sample_speed samples in
  let '(X_train, X_test, y_train, y_test) := train_test_split sk X y (2 # 10) 42 in
  let scaler := StandardScaler_fit sk X_train in
  X_train_scaled <- lift (transform_rows scaler X_train) ;;
  X_test_scaled <- lift (transform_rows scaler X_test) ;;
  let model := RandomForestRegressor_fit sk 100 42 X_train_scaled y_train in
  lift (score model X_train_scaled) ;;;
  lift (score model X_test_scaled) ;;;
  joblib_dump_model model ;;;
  joblib_dump_scaler scaler ;;;
  ret (model, scaler).

(** Lines 88-98.  The value of [train_new_model()] is not used. *)
Definition initialize_model : M unit :=
  try_except
    (m <- joblib_load_model ;;
     set_traffic_model m ;;;
     s <- joblib_load_scaler ;;
     set_scaler s)
    is_FileNotFoundError
    (fun _ => train_new_model ;;; ret tt).

(** Lines 263-295. *)
Definition train_model_endpoint : M TrainResponse :=
  try_except
    (training_data <- collect_training_data ;;
     if (length training_data <? 100)%nat
     then raise (HTTPException 400
                   (Detail "Insufficient training data (need at least 100 samples)"))
     else
       pair <- train_new_model ;;
       set_traffic_model (fst pair) ;;;
       set_scaler (snd pair) ;;;
       ret {| message := "Model retrained successfully";
              samples_used := length training_data |})
    is_Exception
    (fun e => raise (HTTPException 500 (DetailOf "Model training failed: " e))).

(** What [train_new_model] computes before it writes the two files: the
    pair fitted on the generated samples. *)
Definition sample_fit : result (Estimator * Scaler) :=
  let samples := random_sample sk 42 1000 in
  let X := map sample_features samples in
  let y := map sample_speed samples in
  let '(X_train, X_test, y_train, y_test) := train_test_split sk X y (2 # 10) 42 in
  let scaler := StandardScaler_fit sk X_train in
  match transform_rows scaler X_train with
  | Raise e => Raise e
  | Ok X_train_scaled =>
      match transform_rows scaler X_test with
      | Raise e => Raise e
      | Ok X_test_scaled =>
          let model := RandomForestRegressor_fit sk 100 42 X_train_scaled y_train in
          match score model X_train_scaled with
          | Raise e => Raise e
          | Ok _ =>
              match score model X_test_scaled with
              | Raise e => Raise e
              | Ok _ => Ok (model, scaler)
              end
          end
      end
  end.

(** Lines 228-231. *)
Definition startup_event : M unit := initialize_model.

End Training.

(** The answer of [GET /model/info]; [last_training] stands for the ISO
    text of the same instant. *)
Record ModelInfo := {
  model_type : string;
  features : list string;
  target : string;
  model_loaded : bool;
  scaler_loaded : bool;
  last_training : Z
}.

(** Lines 297-312. *)
Definition get_model_info : M ModelInfo := fun w =>
  match traffic_model w with
  | None => raise (HTTPException 404 (Detail "No model loaded")) w
  | Some _ =>
      let model_is_loaded := match traffic_model w with Some _ => true | None => false end in
      let scaler_is_loaded := match scaler w with Some _ => true | None => false end in
      (now <- datetime_now ;;
       ret {| model_type := "RandomForestRegressor";
              features := ["hour_of_day"; "day_of_week"; "weather_impact";
                           "base_speed_limit"; "historical_congestion"];
              target := "current_speed";
              model_loaded := model_is_loaded;
              scaler_loaded := scaler_is_loaded;
              last_training := now |}) w
  end.

(** ** Statements

    What the properties below are stated with: the words of the
    specification, next to the functions of the module. *)

(** A [TrafficData] proper: the five declared fields and nothing else. *)
Definition plain (d : TrafficData) : Prop := td_extra d = ∅.

(** C2 as the specification words it, for one call: if the prediction was
    made and the cache then refuses the write, the prediction is returned all
    the same. *)
Definition cache_failure_nonfatal (seg : string) (d : TrafficData) (w : World) : Prop :=
  forall p w1 e,
    make_prediction seg d w = (Ok p, w1) ->
    redis_fault w1 SETEX = Some e ->
    fst (predict_traffic seg d w) = Ok p.

(** [clamp x lo hi], as usually defined. *)
Definition clamp (x lo hi : Q) : Q :=
  if Qltb x lo then lo else if Qltb hi x then hi else x.

(** The congestion value parsed from one stored entry: the document's
    [congestion_factor] (0.3 when the document has none); nothing for an
    entry that does not parse. *)
Definition parsed_congestion (data : entry) : option value :=
  match data with
  | Document d => Some (default (VFloat default_congestion) (d !! "congestion_factor"))
  | Malformed | NotADocument _ => None
  end.

(** The congestion values of a history, malformed entries skipped. *)
Definition congestion_numbers (historical_data : list entry) : list Q :=
  omap (fun data => parsed_congestion data ≫= as_float) historical_data.

(** Every congestion value that parses is a number. *)
Definition numeric_history (historical_data : list entry) : Prop :=
  Forall (fun data => match parsed_congestion data with
                      | Some v => is_Some (as_float v)
                      | None => True
                      end) historical_data.

Definition arithmetic_mean (qs : list Q) : Q :=
  (fold_right Qplus 0 qs / inject_Z (Z.of_nat (length qs)))%Q.

Definition mean_or_default (qs : list Q) : Q :=
  match qs with
  | [] => default_congestion
  | _ :: _ => arithmetic_mean qs
  end.

(** Predict the observations one after the other; stop at the first that
    raises, with its exception and no prediction. *)
Fixpoint predict_each (traffic_data_list : list TrafficData) : M (list TrafficPrediction) :=
  match traffic_data_list with
  | [] => ret []
  | traffic_data :: rest =>
      fun w =>
      match predict_traffic (segment_id traffic_data) traffic_data w with
      | (Raise e, w1) => (Raise e, w1)
      | (Ok prediction, w1) =>
          match predict_each rest w1 with
          | (Raise e, w2) => (Raise e, w2)
          | (Ok predictions, w2) => (Ok (prediction :: predictions), w2)
          end
      end
  end.

(** The world after the two [joblib.dump] of [train_new_model]. *)
Definition persist (m : Estimator) (s : Scaler) (w : World) : World :=
  snd (joblib_dump_scaler s (snd (joblib_dump_model m w))).

(** The world after [traffic_model, scaler = m, s]. *)
Definition install (m : Estimator) (s : Scaler) (w : World) : World :=
  snd (set_scaler s (snd (set_traffic_model m w))).

(** [w'] is [w] but for the number of clock readings. *)
Definition later (w w' : World) : Prop :=
  traffic_model w' = traffic_model w /\ scaler w' = scaler w /\
  keyspace w' = keyspace w /\ redis_fault w' = redis_fault w /\
  model_pkl w' = model_pkl w /\ scaler_pkl w' = scaler_pkl w /\ clock w' = clock w.

(** C7 as the specification words it.  The congestion value parsed from a
    record is its [congestion_factor]; a record that has none is a malformed
    entry like one that does not load, and is left out of the mean. *)
Definition stated_congestion (data : entry) : option Q :=
  match data with
  | Document d => d !! "congestion_factor" ≫= as_float
  | Malformed | NotADocument _ => None
  end.

Definition historical_congestion_as_stated (historical_data : list entry) : Prop :=
  exists q, avg_historical_congestion historical_data = Ok q /\
            (q == mean_or_default (omap stated_congestion historical_data))%Q.

(** The number of entries of a list that [json.loads] turns into a dict. *)
Fixpoint documents (data_list : list entry) : nat :=
  match data_list with
  | [] => 0
  | Document _ :: rest => S (documents rest)
  | _ :: rest => documents rest
  end.

(** The number of entries of a list that [json.loads] accepts. *)
Fixpoint well_formed (data_list : list entry) : nat :=
  match data_list with
  | [] => 0
  | Malformed :: rest => well_formed rest
  | _ :: rest => S (well_formed rest)
  end.

(** The list stored under a key, [[]] for anything else. *)
Definition list_at (ks : gmap string redis_value) (key : string) : list entry :=
  match ks !! key with
  | Some (RList l) => l
  | _ => []
  end.

(** A number between 0 and 1. *)
Definition in_unit (q : Q) : Prop := (0 <= q <= 1)%Q.

(** ** Sample worlds

    A scaler that leaves numeric features as they are, an estimator that
    computes a speed from the features, and a few worlds built on them. *)

Module Fixture.

Definition plain_scaler : Scaler :=
  {| transform := fun vs => match as_floats vs with
                            | Some qs => Ok qs
                            | None => Raise ValueError
                            end |}.

Definition speed_model : Estimator :=
  {| predict := fun row =>
       match row with
       | [_; _; w; b; c] => Ok (b * (1 - c * (1 # 2)) * (1 - w * (3 # 10)))%Q
       | _ => Raise ValueError
       end |}.

Definition doc (c : Q) : entry := Document {[ "congestion_factor" := VFloat c ]}.

(** Thursday 2025-06-12 (day 739413 after 0001-01-01) from 08:00 on, one
    reading per microsecond. *)
Definition morning (n : nat) : Z := Z.of_nat n + (739413 * us_per_day + 8 * us_per_hour).

Definition history : gmap string redis_value :=
  {[ "historical_traffic:A1" :=
       RList [doc (2 # 10); Malformed; doc (4 # 10); doc (6 # 10)] ]}.

Definition no_fault (c : command) : option exn := None.

(** The cache refuses writes. *)
Definition setex_refused (c : command) : option exn :=
  match c with SETEX => Some RedisError | _ => None end.

(** A process with a loaded pair, after [n] readings of the clock. *)
Definition world (fault : command -> option exn) (ks : gmap string redis_value)
  (n : nat) : World :=
  {| traffic_model := Some speed_model;
     scaler := Some plain_scaler;
     keyspace := ks;
     redis_fault := fault;
     model_pkl := Stored speed_model;
     scaler_pkl := Stored plain_scaler;
     clock := morning;
     ticks := n |}.

(** A process as it starts: no global is set yet. *)
Definition starting (model_file : file Estimator) (scaler_file : file Scaler) : World :=
  {| traffic_model := None;
     scaler := None;
     keyspace := history;
     redis_fault := no_fault;
     model_pkl := model_file;
     scaler_pkl := scaler_file;
     clock := morning;
     ticks := 0 |}.

(** A regressor that predicts the mean of the targets it was fitted on. *)
Definition mean_regressor (y : list Q) : Estimator :=
  let mean :=
    Qred (fold_left (fun a b => Qred (a + b)) y 0 / inject_Z (Z.of_nat (length y)))%Q in
  {| predict := fun _ => Ok mean |}.

(** Every generated sample is a Wednesday at 08:00, weather impact 0.2,
    speed limit 50, congestion 0.4; the first four fifths are the train
    partition. *)
Definition sklearn : Sklearn :=
  {| random_sample := fun _ n => repeat (8, 2, (1 # 5)%Q, 50%Q, (4 # 10)%Q) n;
     train_test_split := fun X y _ _ =>
       let k := (length X * 4 / 5)%nat in
       (firstn k X, skipn k X, firstn k y, skipn k y);
     StandardScaler_fit := fun _ => plain_scaler;
     RandomForestRegressor_fit := fun _ _ _ y => mean_regressor y |}.

(** A stored observation: congestion 0.8, speed 10. *)
Definition slow : entry :=
  Document {[ "congestion_factor" := VFloat (8 # 10); "current_speed" := VFloat 10 ]}.

(** The training row made of [slow] on a Thursday morning. *)
Definition slow_row : TrainingRow :=
  {| row_hour_of_day := 8;
     row_day_of_week := 3;
     row_weather_impact := VInt 0;
     row_base_speed_limit := 50;
     row_historical_congestion := VFloat (8 # 10);
     row_current_speed := VFloat 10 |}.

(** A process with a loaded pair and [n] stored observations of segment B7. *)
Definition stored (n : nat) : World :=
  world no_fault {[ "historical_traffic:B7" := RList (repeat slow n) ]} 0.

Definition serving : World := world no_fault history 0.
Definition cache_down : World := world setex_refused history 0.

(** The prediction for segment A1 at [morning 0], the history averaging
    0.4 and the weather impact being 0.2: speed 50 * 0.8 * 0.94 = 37.6. *)
Definition forecast : TrafficPrediction :=
  {| p_segment_id := "A1";
     predicted_speed := 11280000 # 300000;
     predicted_congestion := 3720000 # 15000000;
     prediction_time := morning 0;
     valid_until := morning 0 + 1800000000;
     confidence := 22440000 # 30000000 |}.

(** A [TrafficData], as the endpoint receives it. *)
Definition observation : TrafficData :=
  {| segment_id := "A1"; current_speed := 30; congestion_factor := 4 # 10;
     traffic_density := 12; timestamp := morning 0; td_extra := ∅ |}.

(** An instance of a subclass of [TrafficData] that declares
    [weather_impact]. *)
Definition with_weather : TrafficData :=
  {| segment_id := "A1"; current_speed := 30; congestion_factor := 4 # 10;
     traffic_density := 12; timestamp := morning 0;
     td_extra := {[ "weather_impact" := VFloat (1 # 5) ]} |}.

(** The same segment seen by another sensor at another time, with the
    same weather. *)
Definition other_reading : TrafficData :=
  {| segment_id := "A1"; current_speed := 5; congestion_factor := 9 # 10;
     traffic_density := 80; timestamp := 0;
     td_extra := {[ "weather_impact" := VFloat (1 # 5) ]} |}.

(** A process that holds an estimator and no scaler. *)
Definition half_loaded : World :=
  {| traffic_model := Some speed_model;
     scaler := None;
     keyspace := history;
     redis_fault := no_fault;
     model_pkl := Stored speed_model;
     scaler_pkl := Missing;
     clock := morning;
     ticks := 0 |}.

(** The pair that [train_new_model] fits with [sklearn]. *)
Definition fitted_model : Estimator := mean_regressor (repeat (658 # 25)%Q 800).

(** The cache write is refused as a client without the keyword [ex] does. *)
Definition keyword_rejected (c : command) : option exn :=
  match c with SETEX => Some TypeError | _ => None end.

(** [serving] with such a client. *)
Definition deployed : World := world keyword_rejected history 0.

(** [serving] with a forecast for A1 among the keys. *)
Definition served : World :=
  world no_fault (<["prediction:A1" := RString forecast 1800]> history) 1.

End Fixture.

(** ** Reasoning about the monad *)

Lemma bind_Ok {A B} (m : M A) (k : A -> M B) w b w' :
  bind m k w = (Ok b, w') ->
  exists a w1, m w = (Ok a, w1) /\ k a w1 = (Ok b, w').
Proof.
  unfold bind. destruct (m w) as [[a|e] w1]; intros H.
  - exists a, w1. split; [reflexivity | exact H].
  - discriminate H.
Qed.

Lemma bind_run_Ok {A B} (m : M A) (k : A -> M B) w a w1 :
  m w = (Ok a, w1) -> bind m k w = k a w1.
Proof. intros H. unfold bind. rewrite H. reflexivity. Qed.

Lemma bind_run_Raise {A B} (m : M A) (k : A -> M B) w e w1 :
  m w = (Raise e, w1) -> bind m k w = (Raise e, w1).
Proof. intros H. unfold bind. rewrite H. reflexivity. Qed.

Lemma lift_Ok {A} (r : result A) w a w' :
  lift r w = (Ok a, w') -> r = Ok a /\ w' = w.
Proof. unfold lift. intros H. inversion H. split; reflexivity. Qed.

Lemma ret_Ok {A} (x : A) w a w' : ret x w = (Ok a, w') -> a = x /\ w' = w.
Proof. unfold ret. intros H. inversion H. split; reflexivity. Qed.

Lemma try_except_Ok {A} (m : M A) c (h : exn -> M A) w a w' :
  m w = (Ok a, w') -> try_except m c h w = (Ok a, w').
Proof. intros H. unfold try_except. rewrite H. reflexivity. Qed.

Lemma try_except_caught {A} (m : M A) c (h : exn -> M A) w e w' :
  m w = (Raise e, w') -> c e = true -> try_except m c h w = h e w'.
Proof. intros H Hc. unfold try_except. rewrite H, Hc. reflexivity. Qed.

(** ** Reads leave the world alone *)

Lemma redis_lrange_world key w : snd (redis_lrange key w) = w.
Proof.
  unfold redis_lrange. destruct (redis_fault w LRANGE); [reflexivity|].
  destruct (keyspace w !! key) as [[l|p ex]|]; reflexivity.
Qed.

(** A [TrafficData] proper has no attribute [weather_impact]. *)
Lemma getattr_weather_impact d :
  td_extra d !! "weather_impact" = None ->
  getattr d "weather_impact" = Raise (AttributeError "weather_impact").
Proof. intros H. unfold getattr. simpl. rewrite H. reflexivity. Qed.

Lemma redis_lrange_Ok key w l w1 :
  redis_lrange key w = (Ok l, w1) -> w1 = w.
Proof.
  intros H. pose proof (redis_lrange_world key w) as Hw.
  rewrite H in Hw. exact Hw.
Qed.

Lemma global_scaler_Ok w s w1 :
  global_scaler w = (Ok s, w1) -> scaler w = Some s /\ w1 = w.
Proof.
  unfold global_scaler. destruct (scaler w); intros H; inversion H; subst.
  split; reflexivity.
Qed.

Lemma global_traffic_model_Ok w m w1 :
  global_traffic_model w = (Ok m, w1) -> traffic_model w = Some m /\ w1 = w.
Proof.
  unfold global_traffic_model. destruct (traffic_model w); intros H; inversion H; subst.
  split; reflexivity.
Qed.

Lemma datetime_now_Ok w t w1 :
  datetime_now w = (Ok t, w1) ->
  t = clock w (ticks w) /\ redis_fault w1 = redis_fault w /\ keyspace w1 = keyspace w /\
  traffic_model w1 = traffic_model w /\ scaler w1 = scaler w.
Proof. unfold datetime_now. intros H. inversion H; subst. simpl. repeat split. Qed.

(** What a prediction that was made looks like. *)
Lemma make_prediction_Ok seg d w p w1 :
  make_prediction seg d w = (Ok p, w1) ->
  p_segment_id p = seg /\
  predicted_congestion p = congestion_of_speed (predicted_speed p) /\
  confidence p = confidence_of_congestion (predicted_congestion p) /\
  datetime_add (prediction_time p) (timedelta_minutes 30) = Ok (valid_until p) /\
  is_Some (td_extra d !! "weather_impact") /\
  redis_fault w1 = redis_fault w /\ keyspace w1 = keyspace w.
Proof.
  intros H. unfold make_prediction in H.
  apply bind_Ok in H. destruct H as (t & wa & Hnow & H).
  apply datetime_now_Ok in Hnow. destruct Hnow as (-> & Hf & Hk & _ & _).
  apply bind_Ok in H. destruct H as (hist & wb & Hhist & H).
  apply redis_lrange_Ok in Hhist. subst wb.
  apply bind_Ok in H. destruct H as (avg & wb & Havg & H).
  apply lift_Ok in Havg. destruct Havg as [Havg ->].
  apply bind_Ok in H. destruct H as (wi & wb & Hwi & H).
  apply lift_Ok in Hwi. destruct Hwi as [Hwi ->].
  apply bind_Ok in H. destruct H as (sc & wb & Hsc & H).
  apply global_scaler_Ok in Hsc. destruct Hsc as [Hsc ->].
  apply bind_Ok in H. destruct H as (fs & wb & Hfs & H).
  apply lift_Ok in Hfs. destruct Hfs as [Hfs ->].
  apply bind_Ok in H. destruct H as (m & wb & Hm & H).
  apply global_traffic_model_Ok in Hm. destruct Hm as [Hm ->].
  apply bind_Ok in H. destruct H as (speed & wb & Hspeed & H).
  apply lift_Ok in Hspeed. destruct Hspeed as [Hspeed ->].
  apply bind_Ok in H. destruct H as (until & wb & Huntil & H).
  apply lift_Ok in Huntil. destruct Huntil as [Huntil ->].
  apply ret_Ok in H. destruct H as [-> ->]. simpl.
  repeat split; try assumption.
  unfold getattr in Hwi. simpl in Hwi.
  destruct (td_extra d !! "weather_impact"); [eexists; reflexivity | discriminate].
Qed.

(** Whether it succeeds or not, making a prediction changes nothing but
    the number of clock readings. *)
Lemma make_prediction_world seg d w :
  snd (make_prediction seg d w) = snd (datetime_now w).
Proof.
  unfold make_prediction, bind.
  destruct (datetime_now w) as [[t|e] wa] eqn:Hnow; [|discriminate Hnow].
  pose proof (redis_lrange_world ("historical_traffic:" ++ seg) wa) as Hl.
  destruct (redis_lrange _ wa) as [[hist|e] wb]; simpl in Hl; subst wb; [|reflexivity].
  unfold lift, global_scaler, global_traffic_model, ret.
  destruct (avg_historical_congestion hist); [|reflexivity].
  destruct (getattr d "weather_impact"); [|reflexivity].
  destruct (scaler wa); [|reflexivity].
  destruct (transform _ _); [|reflexivity].
  destruct (traffic_model wa); [|reflexivity].
  destruct (predict _ _); [|reflexivity].
  destruct (datetime_add _ _); reflexivity.
Qed.

Lemma make_prediction_keyspace seg d w :
  keyspace (snd (make_prediction seg d w)) = keyspace w /\
  redis_fault (snd (make_prediction seg d w)) = redis_fault w.
Proof. rewrite make_prediction_world. split; reflexivity. Qed.

Lemma predict_traffic_loaded seg d w m s :
  traffic_model w = Some m -> scaler w = Some s ->
  predict_traffic seg d w =
  try_except (predict_traffic_try seg d) is_Exception
    (fun e => raise (HTTPException 500 (DetailOf "Prediction failed: " e))) w.
Proof. intros Hm Hs. unfold predict_traffic. rewrite Hm, Hs. reflexivity. Qed.

(** A prediction is returned only after it was made and cached. *)
Lemma predict_traffic_Ok seg d w p w' :
  predict_traffic seg d w = (Ok p, w') ->
  exists w1, make_prediction seg d w = (Ok p, w1) /\
             redis_setex ("prediction:" ++ seg) p 1800 w1 = (Ok tt, w').
Proof.
  unfold predict_traffic.
  destruct (traffic_model w) as [m0|]; [|intros H; discriminate H].
  destruct (scaler w) as [s0|]; [|intros H; discriminate H].
  unfold try_except, predict_traffic_try, bind.
  destruct (make_prediction seg d w) as [[q|e] w1]; [|intros H; discriminate H].
  destruct (redis_setex _ q 1800 w1) as [[[]|e2] w2] eqn:Hset; [|intros H; discriminate H].
  unfold ret. intros H. inversion H; subst. exists w1. split; [reflexivity | exact Hset].
Qed.

(** ** C1 *)

(** C1: with the estimator and the scaler both loaded, [predict_traffic]
    on a [TrafficData] never returns a prediction.  The model declares no
    [weather_impact], so the body of the [try] raises before anything is
    cached, and the handler turns the exception into an HTTP 500. *)
Theorem predict_traffic_never_returns (w : World) (seg : string) (d : TrafficData)
    (m : Estimator) (s : Scaler) :
  traffic_model w = Some m -> scaler w = Some s -> plain d ->
  getattr d "weather_impact" = Raise (AttributeError "weather_impact") /\
  exists cause w',
    predict_traffic seg d w =
      (Raise (HTTPException 500 (DetailOf "Prediction failed: " cause)), w') /\
    keyspace w' = keyspace w.
Proof.
  intros Hm Hs Hd.
  assert (Hnone : td_extra d !! "weather_impact" = None).
  { rewrite Hd. apply lookup_empty. }
  split; [apply getattr_weather_impact; exact Hnone|].
  rewrite (predict_traffic_loaded seg d w m s Hm Hs).
  unfold try_except, predict_traffic_try, bind.
  pose proof (make_prediction_keyspace seg d w) as [Hk _].
  destruct (make_prediction seg d w) as [[p|e] w1] eqn:Hmk.
  - apply make_prediction_Ok in Hmk. destruct Hmk as (_ & _ & _ & _ & [v Hv] & _).
    rewrite Hnone in Hv. discriminate Hv.
  - exists e, w1. split; [reflexivity | exact Hk].
Qed.

Lemma predict_traffic_never_returns_witness :
  getattr Fixture.observation "weather_impact" = Raise (AttributeError "weather_impact") /\
  exists cause w',
    predict_traffic "A1" Fixture.observation Fixture.serving =
      (Raise (HTTPException 500 (DetailOf "Prediction failed: " cause)), w') /\
    keyspace w' = keyspace Fixture.serving.
Proof.
  apply (predict_traffic_never_returns Fixture.serving "A1" Fixture.observation
           Fixture.speed_model Fixture.plain_scaler); reflexivity.
Defined.

(** When the history can be read, the cause is the missing attribute. *)
Lemma predict_traffic_cause (w : World) (seg : string) (d : TrafficData)
    (m : Estimator) (s : Scaler) hist q w1 :
  traffic_model w = Some m -> scaler w = Some s -> plain d ->
  redis_lrange ("historical_traffic:" ++ seg) (snd (datetime_now w)) = (Ok hist, w1) ->
  avg_historical_congestion hist = Ok q ->
  predict_traffic seg d w =
    (Raise (HTTPException 500
              (DetailOf "Prediction failed: " (AttributeError "weather_impact"))), w1).
Proof.
  intros Hm Hs Hd Hl Hq.
  rewrite (predict_traffic_loaded seg d w m s Hm Hs).
  unfold try_except, predict_traffic_try, make_prediction, bind.
  destruct (datetime_now w) as [[t|e] wa] eqn:Hnow; [|discriminate Hnow].
  simpl in Hl. rewrite Hl. unfold lift. rewrite Hq.
  rewrite getattr_weather_impact; [reflexivity|].
  rewrite Hd. apply lookup_empty.
Qed.

(** ** C2 *)

(** The body of the [try] ends with the exception of the cache write. *)
Lemma predict_traffic_try_setex_raises seg d w p w1 e :
  make_prediction seg d w = (Ok p, w1) ->
  redis_fault w1 SETEX = Some e ->
  predict_traffic_try seg d w = (Raise e, w1).
Proof.
  intros Hmk He. unfold predict_traffic_try, bind.
  rewrite Hmk. unfold redis_setex. rewrite He. reflexivity.
Qed.

(** C2, amended: the cache write sits inside the [try]; when it raises, the
    handler turns the exception into an HTTP 500 and the prediction that was
    made is not returned. *)
Theorem cache_failure_is_fatal (w : World) (seg : string) (d : TrafficData)
    (m : Estimator) (s : Scaler) (p : TrafficPrediction) (w1 : World) (e : exn) :
  traffic_model w = Some m -> scaler w = Some s ->
  make_prediction seg d w = (Ok p, w1) ->
  redis_fault w1 SETEX = Some e ->
  predict_traffic seg d w =
    (Raise (HTTPException 500 (DetailOf "Prediction failed: " e)), w1).
Proof.
  intros Hm Hs Hmk He.
  rewrite (predict_traffic_loaded seg d w m s Hm Hs).
  rewrite (try_except_caught _ _ _ _ e w1); [reflexivity | | reflexivity].
  apply (predict_traffic_try_setex_raises seg d w p w1 e); assumption.
Qed.

Lemma cache_failure_is_fatal_witness :
  predict_traffic "A1" Fixture.with_weather Fixture.cache_down =
    (Raise (HTTPException 500 (DetailOf "Prediction failed: " RedisError)),
     Fixture.world Fixture.setex_refused Fixture.history 1).
Proof.
  apply (cache_failure_is_fatal Fixture.cache_down "A1" Fixture.with_weather
           Fixture.speed_model Fixture.plain_scaler Fixture.forecast
           (Fixture.world Fixture.setex_refused Fixture.history 1) RedisError);
    reflexivity.
Defined.

(** C2 as stated fails: the prediction for segment A1 is made, the cache
    refuses the write, and the caller gets an error. *)
Lemma cache_failure_nonfatal_fails :
  ~ cache_failure_nonfatal "A1" Fixture.with_weather Fixture.cache_down.
Proof.
  intros H.
  specialize (H Fixture.forecast (Fixture.world Fixture.setex_refused Fixture.history 1)
                RedisError eq_refl eq_refl).
  rewrite (predict_traffic_loaded "A1" Fixture.with_weather Fixture.cache_down
             Fixture.speed_model Fixture.plain_scaler eq_refl eq_refl) in H.
  rewrite (try_except_caught _ _ _ _ RedisError
             (Fixture.world Fixture.setex_refused Fixture.history 1)) in H;
    [discriminate H | | reflexivity].
  apply (predict_traffic_try_setex_raises _ _ _ Fixture.forecast); reflexivity.
Qed.

(** ** C8 and C10: the derived metrics *)

Lemma Qltb_lt (x y : Q) : Qltb x y = true <-> (x < y)%Q.
Proof.
  unfold Qltb. rewrite negb_true_iff. split.
  - intros H. apply Qnot_le_lt. intros Hle. apply Qle_bool_iff in Hle. congruence.
  - intros H. destruct (Qle_bool y x) eqn:E; [|reflexivity].
    apply Qle_bool_iff in E. exfalso. apply (Qlt_not_le _ _ H E).
Qed.

Lemma Qltb_ge (x y : Q) : Qltb x y = false <-> (y <= x)%Q.
Proof.
  unfold Qltb. rewrite negb_false_iff. apply Qle_bool_iff.
Qed.

Ltac case_Qltb_on a b :=
  let E := fresh "E" in
  destruct (Qltb a b) eqn:E; [apply Qltb_lt in E | apply Qltb_ge in E].

Ltac case_Qltb :=
  repeat match goal with
         | |- context [Qltb ?a ?b] => case_Qltb_on a b
         end.

Lemma py_clamp (x lo hi : Q) :
  (lo <= hi)%Q -> (py_max lo (py_min hi x) == clamp x lo hi)%Q.
Proof.
  intros Hle. unfold py_max, py_min, clamp.
  case_Qltb_on x hi; case_Qltb; lra.
Qed.

Lemma py_clamp' (x lo hi : Q) :
  (lo <= hi)%Q -> (py_min hi (py_max lo x) == clamp x lo hi)%Q.
Proof.
  intros Hle. unfold py_max, py_min, clamp.
  case_Qltb_on lo x; case_Qltb; lra.
Qed.

Lemma clamp_range (x lo hi : Q) :
  (lo <= hi)%Q -> (lo <= clamp x lo hi <= hi)%Q.
Proof.
  intros Hle. unfold clamp. case_Qltb; lra.
Qed.

Lemma congestion_of_speed_clamp (speed : Q) :
  (congestion_of_speed speed == clamp ((base_speed - speed) / base_speed) 0 1)%Q.
Proof. unfold congestion_of_speed. apply py_clamp. lra. Qed.

Lemma confidence_of_congestion_clamp (c : Q) :
  (confidence_of_congestion c == clamp (1 - Qabs (c - (1 # 2))) (1 # 2) (95 # 100))%Q.
Proof. unfold confidence_of_congestion. apply py_clamp'. lra. Qed.

Lemma congestion_of_speed_zero (speed : Q) :
  (speed == 0 -> congestion_of_speed speed == 1)%Q.
Proof.
  intros H. rewrite congestion_of_speed_clamp. unfold clamp, base_speed.
  assert (Hx : ((50 - speed) / 50 == 1)%Q) by (rewrite H; reflexivity).
  case_Qltb; lra.
Qed.

Lemma congestion_of_speed_free_flow (speed : Q) :
  (base_speed <= speed -> congestion_of_speed speed == 0)%Q.
Proof.
  intros H. rewrite congestion_of_speed_clamp. unfold clamp, base_speed in *.
  assert (Hx : ((50 - speed) / 50 <= 0)%Q).
  { apply Qle_shift_div_r; lra. }
  case_Qltb; lra.
Qed.

(** C8: in every prediction [predict_traffic] builds (lines 159-207) the
    congestion is the speed deficit relative to the base speed limit clamped
    to [0, 1], the confidence is [1 - |congestion - 0.5|] clamped to
    [0.5, 0.95]; a predicted speed of 0 gives congestion 1 and a predicted
    speed at or above the base speed limit gives congestion 0. *)
Theorem prediction_metrics (seg : string) (d : TrafficData) (w : World)
    (p : TrafficPrediction) (w1 : World) :
  make_prediction seg d w = (Ok p, w1) ->
  (predicted_congestion p ==
     clamp ((base_speed - predicted_speed p) / base_speed) 0 1 /\
   0 <= predicted_congestion p <= 1 /\
   confidence p ==
     clamp (1 - Qabs (predicted_congestion p - (1 # 2))) (1 # 2) (95 # 100) /\
   (1 # 2) <= confidence p <= (95 # 100) /\
   (predicted_speed p == 0 -> predicted_congestion p == 1) /\
   (base_speed <= predicted_speed p -> predicted_congestion p == 0))%Q.
Proof.
  intros Hmk.
  apply make_prediction_Ok in Hmk. destruct Hmk as (_ & Hc & Hconf & _).
  rewrite Hconf, Hc.
  split; [apply congestion_of_speed_clamp|].
  split; [rewrite congestion_of_speed_clamp; apply clamp_range; lra|].
  split; [apply confidence_of_congestion_clamp|].
  split; [rewrite confidence_of_congestion_clamp; apply clamp_range; lra|].
  split; [apply congestion_of_speed_zero | apply congestion_of_speed_free_flow].
Qed.

Lemma prediction_metrics_witness :
  let p := Fixture.forecast in
  (predicted_congestion p ==
     clamp ((base_speed - predicted_speed p) / base_speed) 0 1 /\
   0 <= predicted_congestion p <= 1 /\
   confidence p ==
     clamp (1 - Qabs (predicted_congestion p - (1 # 2))) (1 # 2) (95 # 100) /\
   (1 # 2) <= confidence p <= (95 # 100) /\
   (predicted_speed p == 0 -> predicted_congestion p == 1) /\
   (base_speed <= predicted_speed p -> predicted_congestion p == 0))%Q.
Proof.
  apply (prediction_metrics "A1" Fixture.with_weather Fixture.deployed Fixture.forecast
           (Fixture.world Fixture.keyword_rejected Fixture.history 1)).
  reflexivity.
Defined.

(** The two ends of the congestion scale, for any estimator output. *)
Example congestion_at_standstill : (congestion_of_speed 0 == 1)%Q.
Proof. reflexivity. Qed.

Example congestion_at_speed_limit : (congestion_of_speed 50 == 0)%Q.
Proof. reflexivity. Qed.

Example congestion_above_speed_limit : (congestion_of_speed 72 == 0)%Q.
Proof. reflexivity. Qed.

(** C10: in every prediction [predict_traffic] builds (lines 159-207),
    [valid_until] is [prediction_time] plus 30 minutes, that is 1800 seconds,
    exactly. *)
Theorem valid_until_30_minutes (seg : string) (d : TrafficData) (w : World)
    (p : TrafficPrediction) (w1 : World) :
  make_prediction seg d w = (Ok p, w1) ->
  valid_until p = prediction_time p + timedelta_minutes 30 /\
  valid_until p - prediction_time p = 1800 * 1000000.
Proof.
  intros Hmk.
  apply make_prediction_Ok in Hmk. destruct Hmk as (_ & _ & _ & Hadd & _).
  unfold datetime_add in Hadd.
  destruct ((0 <=? _) && (_ <? _)); [|discriminate Hadd].
  inversion Hadd as [Hv]. unfold timedelta_minutes, us_per_minute. lia.
Qed.

Lemma valid_until_30_minutes_witness :
  valid_until Fixture.forecast = prediction_time Fixture.forecast + timedelta_minutes 30 /\
  valid_until Fixture.forecast - prediction_time Fixture.forecast = 1800 * 1000000.
Proof.
  apply (valid_until_30_minutes "A1" Fixture.with_weather Fixture.deployed Fixture.forecast
           (Fixture.world Fixture.keyword_rejected Fixture.history 1)).
  reflexivity.
Defined.

(** ** C7: the historical congestion feature *)

Lemma fold_append_congestion (historical_data : list entry) (acc : list value) :
  fold_left append_congestion historical_data acc =
  (acc ++ omap parsed_congestion historical_data)%list.
Proof.
  revert acc. induction historical_data as [|data rest IH]; intros acc; simpl.
  - rewrite app_nil_r. reflexivity.
  - rewrite IH. destruct data as [|d|v]; simpl; [reflexivity| |reflexivity].
    rewrite <- app_assoc. reflexivity.
Qed.

Lemma as_floats_numeric (historical_data : list entry) :
  numeric_history historical_data ->
  as_floats (omap parsed_congestion historical_data) =
  Some (congestion_numbers historical_data).
Proof.
  unfold numeric_history, congestion_numbers.
  induction 1 as [|data rest Hdata _ IH]; simpl; [reflexivity|].
  destruct (parsed_congestion data) as [v|]; simpl; [|exact IH].
  destruct Hdata as [q Hq]. rewrite Hq. simpl.
  unfold omap in IH. rewrite IH. reflexivity.
Qed.

Lemma Qsum_from (qs : list Q) (a : Q) :
  (fold_left Qplus qs a == a + fold_right Qplus 0 qs)%Q.
Proof.
  revert a. induction qs as [|q qs IH]; intros a; simpl.
  - lra.
  - rewrite IH. lra.
Qed.

Lemma Qsum_fold_right (qs : list Q) : (Qsum qs == fold_right Qplus 0 qs)%Q.
Proof. unfold Qsum. rewrite Qsum_from. lra. Qed.

Lemma np_mean_numeric (historical_data : list entry) :
  numeric_history historical_data ->
  exists q, np_mean (omap parsed_congestion historical_data) = Ok q /\
            (q == arithmetic_mean (congestion_numbers historical_data))%Q.
Proof.
  intros H. unfold np_mean. rewrite (as_floats_numeric _ H).
  eexists. split; [reflexivity|].
  unfold arithmetic_mean. rewrite Qsum_fold_right. reflexivity.
Qed.

Lemma congestion_numbers_nil (historical_data : list entry) :
  numeric_history historical_data ->
  omap parsed_congestion historical_data = [] ->
  congestion_numbers historical_data = [].
Proof.
  intros H E. apply as_floats_numeric in H. rewrite E in H. simpl in H. congruence.
Qed.

Lemma congestion_numbers_cons (historical_data : list entry) v vs :
  numeric_history historical_data ->
  omap parsed_congestion historical_data = v :: vs ->
  exists q qs, congestion_numbers historical_data = q :: qs.
Proof.
  intros H E. apply as_floats_numeric in H. rewrite E in H. simpl in H.
  destruct (as_float v); [|discriminate H].
  destruct (as_floats vs); [|discriminate H].
  inversion H. eauto.
Qed.

Lemma avg_historical_congestion_mean (historical_data : list entry) :
  numeric_history historical_data ->
  exists q, avg_historical_congestion historical_data = Ok q /\
            (q == mean_or_default (congestion_numbers historical_data))%Q.
Proof.
  intros H. unfold avg_historical_congestion.
  destruct historical_data as [|data rest] eqn:Eh.
  - exists default_congestion. split; reflexivity.
  - rewrite <- Eh in *. clear Eh data rest.
    rewrite fold_append_congestion. simpl.
    destruct (omap parsed_congestion historical_data) as [|v vs] eqn:Ev.
    + exists default_congestion. split; [reflexivity|].
      rewrite (congestion_numbers_nil _ H Ev). reflexivity.
    + destruct (congestion_numbers_cons _ _ _ H Ev) as (q0 & qs & Eq).
      pose proof (np_mean_numeric _ H) as (q & Hq & Hmean).
      rewrite Ev in Hq. exists q. split; [exact Hq|].
      rewrite Hmean, Eq. reflexivity.
Qed.

(** An entry that does not parse changes nothing. *)
Lemma avg_historical_congestion_skips (before after : list entry) (data : entry) :
  parsed_congestion data = None ->
  avg_historical_congestion (before ++ data :: after)%list =
  avg_historical_congestion (before ++ after)%list.
Proof.
  intros Hnone.
  assert (E : fold_left append_congestion (before ++ data :: after)%list [] =
              fold_left append_congestion (before ++ after)%list []).
  { rewrite !fold_append_congestion, !omap_app. simpl. rewrite Hnone. reflexivity. }
  unfold avg_historical_congestion.
  destruct (before ++ data :: after)%list as [|x xs] eqn:E1;
    [destruct before; discriminate E1|].
  rewrite E.
  destruct (before ++ after)%list as [|y ys] eqn:E2; [|reflexivity].
  reflexivity.
Qed.

(** C7, amended: for stored records whose congestion values are numbers
    between 0 and 1, the historical congestion feature is the arithmetic mean
    of the values of the records that load as documents, a document without
    [congestion_factor] counting as 0.3, and it is 0.3 when no record loads
    as a document; an entry that does not load is skipped, with no exception;
    records with congestion 0.2, 0.4 and 0.6 give 0.4 and no record gives
    0.3. *)
Theorem historical_congestion_feature :
  (forall historical_data : list entry,
     numeric_history historical_data ->
     Forall in_unit (congestion_numbers historical_data) ->
     exists q, avg_historical_congestion historical_data = Ok q /\
               (q == mean_or_default (congestion_numbers historical_data))%Q) /\
  (forall (before after : list entry) (data : entry),
     parsed_congestion data = None ->
     avg_historical_congestion (before ++ data :: after)%list =
     avg_historical_congestion (before ++ after)%list) /\
  (forall d : gmap string value,
     d !! "congestion_factor" = None ->
     parsed_congestion (Document d) = Some (VFloat (3 # 10))) /\
  (exists q, avg_historical_congestion
               [Fixture.doc (2 # 10); Fixture.doc (4 # 10); Fixture.doc (6 # 10)] = Ok q /\
             (q == 4 # 10)%Q) /\
  avg_historical_congestion [] = Ok (3 # 10)%Q.
Proof.
  split; [intros historical_data Hnum _; exact (avg_historical_congestion_mean _ Hnum)|].
  split; [exact avg_historical_congestion_skips|].
  split; [intros d Hd; simpl; rewrite Hd; reflexivity|].
  split; [|reflexivity].
  eexists. split; reflexivity.
Qed.

Lemma historical_congestion_feature_witness :
  exists q,
    avg_historical_congestion
      [Fixture.doc (2 # 10); Malformed; Document ∅; NotADocument (VInt 7)] = Ok q /\
    (q == mean_or_default
            (congestion_numbers
               [Fixture.doc (2 # 10); Malformed; Document ∅; NotADocument (VInt 7)]))%Q.
Proof.
  apply (proj1 historical_congestion_feature
           [Fixture.doc (2 # 10); Malformed; Document ∅; NotADocument (VInt 7)]).
  - repeat (constructor; [vm_compute; eauto|]). constructor.
  - repeat (constructor; [unfold in_unit; split; discriminate|]). constructor.
Defined.

(** C7 as stated fails: of two records, one without [congestion_factor]
    and one with 0.9, the feature is 0.6, the mean of 0.3 and 0.9, and not
    0.9. *)
Lemma historical_congestion_as_stated_fails :
  ~ historical_congestion_as_stated [Document ∅; Fixture.doc (9 # 10)].
Proof.
  intros (q & Hq & Hmean).
  vm_compute in Hq. inversion Hq; subst q; clear Hq.
  vm_compute in Hmean. discriminate Hmean.
Qed.

(** ** C9: batch prediction *)

Lemma batch_loop_predict_each (traffic_data_list : list TrafficData)
    (predictions : list TrafficPrediction) (w : World) :
  batch_loop traffic_data_list predictions w =
  match predict_each traffic_data_list w with
  | (Ok rest, w') => (Ok (predictions ++ rest)%list, w')
  | (Raise e, w') => (Raise e, w')
  end.
Proof.
  revert predictions w.
  induction traffic_data_list as [|traffic_data rest IH]; intros predictions w; simpl.
  - unfold ret. rewrite app_nil_r. reflexivity.
  - unfold bind.
    destruct (predict_traffic (segment_id traffic_data) traffic_data w) as [[p|e] w1];
      [|reflexivity].
    rewrite IH.
    destruct (predict_each rest w1) as [[ps|e] w2]; [|reflexivity].
    rewrite <- app_assoc. reflexivity.
Qed.

Lemma predict_each_length (traffic_data_list : list TrafficData) (w : World)
    (predictions : list TrafficPrediction) (w' : World) :
  predict_each traffic_data_list w = (Ok predictions, w') ->
  length predictions = length traffic_data_list.
Proof.
  revert w predictions.
  induction traffic_data_list as [|traffic_data rest IH]; intros w predictions; simpl.
  - unfold ret. intros H. inversion H. reflexivity.
  - destruct (predict_traffic (segment_id traffic_data) traffic_data w) as [[p|e] w1];
      [|intros H; discriminate H].
    destruct (predict_each rest w1) as [[ps|e] w2] eqn:E; [|intros H; discriminate H].
    intros H. inversion H; subst. simpl. f_equal. exact (IH w1 ps E).
Qed.

(** The first observation that raises ends the run. *)
Lemma predict_each_raises (done rest : list TrafficData) (traffic_data : TrafficData)
    (w w1 w2 : World) (predictions : list TrafficPrediction) (e : exn) :
  predict_each done w = (Ok predictions, w1) ->
  predict_traffic (segment_id traffic_data) traffic_data w1 = (Raise e, w2) ->
  predict_each (done ++ traffic_data :: rest)%list w = (Raise e, w2).
Proof.
  revert w predictions.
  induction done as [|x xs IH]; intros w predictions; simpl.
  - unfold ret. intros H Hx. inversion H; subst. rewrite Hx. reflexivity.
  - destruct (predict_traffic (segment_id x) x w) as [[p|e0] wa];
      [|intros H; discriminate H].
    destruct (predict_each xs wa) as [[ps|e0] wb] eqn:E; [|intros H; discriminate H].
    intros H Hx. inversion H; subst. rewrite (IH wa ps E Hx). reflexivity.
Qed.

(** C9: the batch endpoint predicts its observations in order; as soon as
    one raises, the whole call fails with an HTTP 500 that carries no
    prediction; when all succeed it returns their predictions, in order,
    with a count equal to the number of observations. *)
Theorem predict_batch_all_or_nothing (traffic_data_list : list TrafficData) (w : World) :
  predict_batch_traffic traffic_data_list w =
  match predict_each traffic_data_list w with
  | (Ok predictions, w') =>
      (Ok {| predictions := predictions; count := length traffic_data_list |}, w')
  | (Raise e, w') =>
      (Raise (HTTPException 500 (DetailOf "Batch prediction failed: " e)), w')
  end.
Proof.
  unfold predict_batch_traffic, try_except, bind.
  rewrite batch_loop_predict_each.
  destruct (predict_each traffic_data_list w) as [[ps|e] w'] eqn:E; [|reflexivity].
  simpl. unfold ret. rewrite (predict_each_length _ _ _ _ E). reflexivity.
Qed.

(** Two observations that can be predicted: two predictions, count 2. *)
Example batch_of_two :
  exists p1 p2 w',
    predict_batch_traffic [Fixture.with_weather; Fixture.with_weather] Fixture.serving =
    (Ok {| predictions := [p1; p2]; count := 2 |}, w').
Proof. eexists. eexists. eexists. reflexivity. Qed.

(** The second observation is a [TrafficData] proper: the call fails, and
    the prediction made for the first is not reported. *)
Example batch_second_fails :
  exists w',
    predict_batch_traffic [Fixture.with_weather; Fixture.observation] Fixture.serving =
    (Raise (HTTPException 500
              (DetailOf "Batch prediction failed: "
                 (HTTPException 500
                    (DetailOf "Prediction failed: " (AttributeError "weather_impact"))))),
     w').
Proof. eexists. reflexivity. Qed.

(** ** Training and startup *)

Lemma train_new_model_run (sk : Sklearn) (w : World) :
  train_new_model sk w =
  match sample_fit sk with
  | Ok (m, s) => (Ok (m, s), persist m s w)
  | Raise e => (Raise e, w)
  end.
Proof.
  unfold train_new_model, sample_fit.
  destruct (train_test_split sk _ _ _ _) as [[[X_train X_test] y_train] y_test].
  unfold bind, lift.
  destruct (transform_rows _ X_train) as [X_train_scaled|e]; [|reflexivity].
  destruct (transform_rows _ X_test) as [X_test_scaled|e]; [|reflexivity].
  destruct (score _ X_train_scaled) as [[]|e]; [|reflexivity].
  destruct (score _ X_test_scaled) as [[]|e]; reflexivity.
Qed.

(** Training assigns no global and touches nothing in Redis. *)
Lemma train_new_model_globals (sk : Sklearn) (w : World) :
  traffic_model (snd (train_new_model sk w)) = traffic_model w /\
  scaler (snd (train_new_model sk w)) = scaler w /\
  keyspace (snd (train_new_model sk w)) = keyspace w.
Proof.
  rewrite train_new_model_run.
  destruct (sample_fit sk) as [[m s]|e]; simpl; repeat split.
Qed.

Lemma joblib_load_model_Missing (w : World) :
  model_pkl w = Missing -> joblib_load_model w = (Raise (FileNotFoundError model_path), w).
Proof. intros H. unfold joblib_load_model. rewrite H. reflexivity. Qed.

Lemma joblib_load_model_Stored (w : World) (m : Estimator) :
  model_pkl w = Stored m -> joblib_load_model w = (Ok m, w).
Proof. intros H. unfold joblib_load_model. rewrite H. reflexivity. Qed.

Lemma joblib_load_scaler_Missing (w : World) :
  scaler_pkl w = Missing -> joblib_load_scaler w = (Raise (FileNotFoundError scaler_path), w).
Proof. intros H. unfold joblib_load_scaler. rewrite H. reflexivity. Qed.

Lemma joblib_load_scaler_Stored (w : World) (s : Scaler) :
  scaler_pkl w = Stored s -> joblib_load_scaler w = (Ok s, w).
Proof. intros H. unfold joblib_load_scaler. rewrite H. reflexivity. Qed.

Lemma initialize_model_no_model_file (sk : Sklearn) (w : World) :
  model_pkl w = Missing ->
  initialize_model sk w = (train_new_model sk ;;; ret tt) w.
Proof.
  intros H. unfold initialize_model.
  rewrite (try_except_caught _ _ _ w (FileNotFoundError model_path) w);
    [reflexivity | | reflexivity].
  apply bind_run_Raise. apply joblib_load_model_Missing. exact H.
Qed.

Lemma initialize_model_no_scaler_file (sk : Sklearn) (w : World) (m : Estimator) :
  model_pkl w = Stored m -> scaler_pkl w = Missing ->
  initialize_model sk w = (train_new_model sk ;;; ret tt) (snd (set_traffic_model m w)).
Proof.
  intros Hm Hs. unfold initialize_model.
  rewrite (try_except_caught _ _ _ w (FileNotFoundError scaler_path)
             (snd (set_traffic_model m w))); [reflexivity | | reflexivity].
  rewrite (bind_run_Ok _ _ w m w (joblib_load_model_Stored w m Hm)).
  rewrite (bind_run_Ok _ _ w tt (snd (set_traffic_model m w)) eq_refl).
  apply bind_run_Raise.
  apply (joblib_load_scaler_Missing (snd (set_traffic_model m w))). exact Hs.
Qed.

Lemma initialize_model_both_files (sk : Sklearn) (w : World) (m : Estimator) (s : Scaler) :
  model_pkl w = Stored m -> scaler_pkl w = Stored s ->
  initialize_model sk w = (Ok tt, install m s w).
Proof.
  intros Hm Hs. unfold initialize_model.
  apply try_except_Ok.
  rewrite (bind_run_Ok _ _ w m w (joblib_load_model_Stored w m Hm)).
  rewrite (bind_run_Ok _ _ w tt (snd (set_traffic_model m w)) eq_refl).
  rewrite (bind_run_Ok _ _ (snd (set_traffic_model m w)) s (snd (set_traffic_model m w))
             (joblib_load_scaler_Stored (snd (set_traffic_model m w)) s Hs)).
  reflexivity.
Qed.

(** ** C4 *)

(** C4 fails where no artifact is persisted: [initialize_model] trains a
    pair and writes it to the model directory, but drops the value of
    [train_new_model()]; the two globals stay unset. *)
Theorem startup_drops_trained_pair (sk : Sklearn) (w : World)
    (m : Estimator) (s : Scaler) :
  model_pkl w = Missing -> traffic_model w = None -> scaler w = None ->
  sample_fit sk = Ok (m, s) ->
  initialize_model sk w = (Ok tt, persist m s w) /\
  model_pkl (persist m s w) = Stored m /\ scaler_pkl (persist m s w) = Stored s /\
  traffic_model (persist m s w) = None /\ scaler (persist m s w) = None.
Proof.
  intros Hfile Hm Hs Hfit.
  rewrite (initialize_model_no_model_file sk w Hfile).
  unfold bind. rewrite train_new_model_run, Hfit. simpl.
  repeat split; assumption.
Qed.

Lemma startup_drops_trained_pair_witness :
  let w := Fixture.starting Missing Missing in
  let m := Fixture.mean_regressor (repeat (658 # 25)%Q 800) in
  let s := Fixture.plain_scaler in
  initialize_model Fixture.sklearn w = (Ok tt, persist m s w) /\
  model_pkl (persist m s w) = Stored m /\ scaler_pkl (persist m s w) = Stored s /\
  traffic_model (persist m s w) = None /\ scaler (persist m s w) = None.
Proof.
  apply (startup_drops_trained_pair Fixture.sklearn (Fixture.starting Missing Missing)
           (Fixture.mean_regressor (repeat (658 # 25)%Q 800)) Fixture.plain_scaler);
    [reflexivity | reflexivity | reflexivity | vm_compute; reflexivity].
Defined.

(** After such a startup every prediction is refused. *)
Lemma predict_traffic_not_loaded (seg : string) (d : TrafficData) (w : World) :
  traffic_model w = None \/ scaler w = None ->
  predict_traffic seg d w = (Raise (HTTPException 500 (Detail "ML model not loaded")), w).
Proof.
  intros [H|H]; unfold predict_traffic; rewrite H; [reflexivity|].
  destruct (traffic_model w); reflexivity.
Qed.

(** ** C6 *)

(** C6 fails at startup when only the estimator's file is there: the
    estimator is loaded, loading the scaler raises [FileNotFoundError], and
    the pair trained in the handler is dropped; exactly one global is set. *)
Theorem startup_loads_model_alone (sk : Sklearn) (w : World) (m : Estimator) :
  model_pkl w = Stored m -> scaler_pkl w = Missing -> scaler w = None ->
  traffic_model (snd (initialize_model sk w)) = Some m /\
  scaler (snd (initialize_model sk w)) = None.
Proof.
  intros Hm Hs Hnone.
  rewrite (initialize_model_no_scaler_file sk w m Hm Hs).
  unfold bind.
  pose proof (train_new_model_globals sk (snd (set_traffic_model m w))) as (Gm & Gs & _).
  destruct (train_new_model sk (snd (set_traffic_model m w))) as [[pair|e] w1];
    simpl in *; rewrite Gm, Gs; split; assumption || reflexivity.
Qed.

Lemma startup_loads_model_alone_witness :
  let w := Fixture.starting (Stored Fixture.speed_model) Missing in
  traffic_model (snd (initialize_model Fixture.sklearn w)) = Some Fixture.speed_model /\
  scaler (snd (initialize_model Fixture.sklearn w)) = None.
Proof.
  apply (startup_loads_model_alone Fixture.sklearn
           (Fixture.starting (Stored Fixture.speed_model) Missing) Fixture.speed_model);
    reflexivity.
Defined.

(** The other operations keep the two globals together. *)
Lemma predict_traffic_globals (seg : string) (d : TrafficData) (w : World) :
  traffic_model (snd (predict_traffic seg d w)) = traffic_model w /\
  scaler (snd (predict_traffic seg d w)) = scaler w.
Proof.
  unfold predict_traffic.
  destruct (traffic_model w) as [m|] eqn:Hm; [|split; simpl; congruence].
  destruct (scaler w) as [s|] eqn:Hs; [|split; simpl; congruence].
  unfold try_except, predict_traffic_try, bind.
  pose proof (make_prediction_world seg d w) as Hw.
  destruct (make_prediction seg d w) as [[p|e] w1]; simpl in Hw; subst w1.
  - unfold redis_setex. simpl.
    destruct (redis_fault w SETEX); simpl; split; assumption.
  - simpl. split; assumption.
Qed.

(** ** Retraining *)

Lemma later_refl (w : World) : later w w.
Proof. unfold later. repeat split. Qed.

Lemma later_trans (w1 w2 w3 : World) : later w1 w2 -> later w2 w3 -> later w1 w3.
Proof.
  unfold later. intros (A1 & A2 & A3 & A4 & A5 & A6 & A7) (B1 & B2 & B3 & B4 & B5 & B6 & B7).
  repeat split; congruence.
Qed.

Lemma datetime_now_later (w : World) : later w (snd (datetime_now w)).
Proof. unfold later, datetime_now. simpl. repeat split. Qed.

Lemma collect_entries_later (data_list : list entry) (training_data : list TrainingRow)
    (w : World) :
  later w (snd (collect_entries data_list training_data w)).
Proof.
  revert training_data w.
  induction data_list as [|data rest IH]; intros training_data w; simpl.
  - apply later_refl.
  - destruct data as [|d|v].
    + apply IH.
    + unfold bind. simpl.
      eapply later_trans; [|apply IH].
      eapply later_trans; [apply (datetime_now_later w)|].
      apply (datetime_now_later (snd (datetime_now w))).
    + unfold bind. simpl.
      eapply later_trans; [|apply IH].
      eapply later_trans; [apply (datetime_now_later w)|].
      apply (datetime_now_later (snd (datetime_now w))).
Qed.

Lemma collect_keys_later (keys : list string) (training_data : list TrainingRow)
    (w : World) :
  later w (snd (collect_keys keys training_data w)).
Proof.
  revert training_data w.
  induction keys as [|key rest IH]; intros training_data w; simpl.
  - apply later_refl.
  - unfold bind.
    pose proof (redis_lrange_world key w) as Hl.
    destruct (redis_lrange key w) as [[data_list|e] w1]; simpl in Hl; subst w1;
      [|apply later_refl].
    pose proof (collect_entries_later data_list training_data w) as He.
    destruct (collect_entries data_list training_data w) as [[td|e] w1]; simpl in He;
      [|exact He].
    eapply later_trans; [exact He | apply IH].
Qed.

Lemma collect_training_data_later (w : World) :
  later w (snd (collect_training_data w)).
Proof.
  unfold collect_training_data, bind, redis_scan_iter.
  destruct (redis_fault w SCAN); [apply later_refl|].
  apply collect_keys_later.
Qed.

(** With enough rows the endpoint trains, installs the pair and answers. *)
Lemma enough_data_retrains (sk : Sklearn) (w : World) (training_data : list TrainingRow)
    (m : Estimator) (s : Scaler) :
  fst (collect_training_data w) = Ok training_data ->
  (100 <= length training_data)%nat ->
  sample_fit sk = Ok (m, s) ->
  fst (train_model_endpoint sk w) =
    Ok {| message := "Model retrained successfully";
          samples_used := length training_data |} /\
  traffic_model (snd (train_model_endpoint sk w)) = Some m /\
  scaler (snd (train_model_endpoint sk w)) = Some s.
Proof.
  intros Htd Hlen Hfit. unfold train_model_endpoint, try_except, bind.
  destruct (collect_training_data w) as [[td|e] w1]; simpl in Htd; [|discriminate Htd].
  inversion Htd; subst td.
  destruct (Nat.ltb_spec (length training_data) 100) as [Hlt|_]; [lia|].
  rewrite train_new_model_run, Hfit. simpl. repeat split.
Qed.

(** ** C5 *)

(** C5 fails below 100 rows: the [HTTPException] with status 400 is raised
    inside the [try], whose handler catches every [Exception]; the caller
    gets a 500 that wraps it.  Nothing is trained and the globals stay. *)
Theorem insufficient_data_is_500 (sk : Sklearn) (w : World)
    (training_data : list TrainingRow) :
  fst (collect_training_data w) = Ok training_data ->
  (length training_data < 100)%nat ->
  fst (train_model_endpoint sk w) =
    Raise (HTTPException 500
             (DetailOf "Model training failed: "
                (HTTPException 400
                   (Detail "Insufficient training data (need at least 100 samples)")))) /\
  traffic_model (snd (train_model_endpoint sk w)) = traffic_model w /\
  scaler (snd (train_model_endpoint sk w)) = scaler w.
Proof.
  intros Htd Hlen. unfold train_model_endpoint, try_except, bind.
  pose proof (collect_training_data_later w) as (Gm & Gs & _).
  destruct (collect_training_data w) as [[td|e] w1]; simpl in *; [|discriminate Htd].
  inversion Htd; subst td.
  destruct (Nat.ltb_spec (length training_data) 100) as [_|Hge]; [|lia].
  simpl. repeat split; assumption.
Qed.

Lemma insufficient_data_is_500_witness :
  fst (train_model_endpoint Fixture.sklearn (Fixture.stored 99)) =
    Raise (HTTPException 500
             (DetailOf "Model training failed: "
                (HTTPException 400
                   (Detail "Insufficient training data (need at least 100 samples)")))) /\
  traffic_model (snd (train_model_endpoint Fixture.sklearn (Fixture.stored 99))) =
    traffic_model (Fixture.stored 99) /\
  scaler (snd (train_model_endpoint Fixture.sklearn (Fixture.stored 99))) =
    scaler (Fixture.stored 99).
Proof.
  apply (insufficient_data_is_500 Fixture.sklearn (Fixture.stored 99)
           (repeat Fixture.slow_row 99)).
  - vm_compute. reflexivity.
  - rewrite repeat_length. lia.
Defined.

(** Exactly 100 rows pass the check. *)
Example hundred_rows_retrain :
  fst (train_model_endpoint Fixture.sklearn (Fixture.stored 100)) =
    Ok {| message := "Model retrained successfully"; samples_used := 100 |}.
Proof. vm_compute. reflexivity. Qed.

(** ** C3 *)

(** C3 fails: the rows gathered from the store are only counted.  A
    retrain that succeeds installs the pair fitted by [train_new_model] on
    the 1000 samples it generates with seed 42, whatever the store holds. *)
Theorem retrain_fits_generated_samples (sk : Sklearn) (w : World) (resp : TrainResponse) :
  fst (train_model_endpoint sk w) = Ok resp ->
  exists m s,
    sample_fit sk = Ok (m, s) /\
    traffic_model (snd (train_model_endpoint sk w)) = Some m /\
    scaler (snd (train_model_endpoint sk w)) = Some s.
Proof.
  unfold train_model_endpoint, try_except, bind.
  destruct (collect_training_data w) as [[td|e] w1]; [|intros H; discriminate H].
  destruct (length td <? 100)%nat; [intros H; discriminate H|].
  rewrite train_new_model_run.
  destruct (sample_fit sk) as [[m s]|e]; [|intros H; discriminate H].
  intros _. exists m, s. simpl. repeat split.
Qed.

Lemma retrain_fits_generated_samples_witness :
  exists m s,
    sample_fit Fixture.sklearn = Ok (m, s) /\
    traffic_model (snd (train_model_endpoint Fixture.sklearn (Fixture.stored 100))) = Some m /\
    scaler (snd (train_model_endpoint Fixture.sklearn (Fixture.stored 100))) = Some s.
Proof.
  apply (retrain_fits_generated_samples Fixture.sklearn (Fixture.stored 100)
           {| message := "Model retrained successfully"; samples_used := 100 |}).
  vm_compute. reflexivity.
Defined.

(** Every stored observation has speed 10, and the retrained estimator
    predicts 26.32, the mean of the generated targets. *)
Example retrain_ignores_stored_speeds :
  fst (collect_training_data (Fixture.stored 100)) = Ok (repeat Fixture.slow_row 100) /\
  exists m,
    traffic_model (snd (train_model_endpoint Fixture.sklearn (Fixture.stored 100))) = Some m /\
    predict m [8; 3; 0; 50; 8 # 10]%Q = Ok (658 # 25)%Q.
Proof.
  split.
  - vm_compute. reflexivity.
  - exists (Fixture.mean_regressor (repeat (658 # 25)%Q 800)).
    split; vm_compute; reflexivity.
Qed.

(** Whatever it does, the endpoint leaves the two globals as they were or
    replaces both with the pair of one training. *)
Lemma train_model_endpoint_globals (sk : Sklearn) (w : World) :
  (traffic_model (snd (train_model_endpoint sk w)) = traffic_model w /\
   scaler (snd (train_model_endpoint sk w)) = scaler w) \/
  (exists m s, sample_fit sk = Ok (m, s) /\
               traffic_model (snd (train_model_endpoint sk w)) = Some m /\
               scaler (snd (train_model_endpoint sk w)) = Some s).
Proof.
  unfold train_model_endpoint, try_except, bind.
  pose proof (collect_training_data_later w) as (Gm & Gs & _).
  destruct (collect_training_data w) as [[td|e] w1]; simpl in *;
    [|left; split; assumption].
  destruct (length td <? 100)%nat; [left; split; assumption|].
  rewrite train_new_model_run.
  destruct (sample_fit sk) as [[m s]|e]; simpl.
  - right. exists m, s. repeat split.
  - left. split; assumption.
Qed.

(** ** More about [predict_traffic] *)

Lemma getattr_weather_impact_lookup (d : TrafficData) :
  getattr d "weather_impact" =
  match td_extra d !! "weather_impact" with
  | Some v => Ok v
  | None => Raise (AttributeError "weather_impact")
  end.
Proof. reflexivity. Qed.

Lemma predict_traffic_Raise (seg : string) (d : TrafficData) (w : World) (e : exn)
    (w' : World) :
  predict_traffic seg d w = (Raise e, w') ->
  exists detail, e = HTTPException 500 detail.
Proof.
  unfold predict_traffic.
  destruct (traffic_model w) as [m|];
    [|intros H; inversion H; eexists; reflexivity].
  destruct (scaler w) as [s|];
    [|intros H; inversion H; eexists; reflexivity].
  unfold try_except.
  destruct (predict_traffic_try seg d w) as [[p|e0] w1]; intros H.
  - discriminate H.
  - simpl in H. inversion H. eexists. reflexivity.
Qed.

Lemma make_prediction_time (seg : string) (d : TrafficData) (w : World)
    (p : TrafficPrediction) (w1 : World) :
  make_prediction seg d w = (Ok p, w1) ->
  prediction_time p = clock w (ticks w) /\ w1 = snd (datetime_now w).
Proof.
  intros H. pose proof (make_prediction_world seg d w) as Hw.
  rewrite H in Hw. simpl in Hw. split; [|exact Hw].
  unfold make_prediction in H.
  apply bind_Ok in H. destruct H as (t & wa & Hnow & H).
  apply datetime_now_Ok in Hnow. destruct Hnow as (-> & _).
  apply bind_Ok in H. destruct H as (hist & wb & _ & H).
  apply bind_Ok in H. destruct H as (avg & wc & _ & H).
  apply bind_Ok in H. destruct H as (wi & wd & _ & H).
  apply bind_Ok in H. destruct H as (sc & we & _ & H).
  apply bind_Ok in H. destruct H as (fs & wf & _ & H).
  apply bind_Ok in H. destruct H as (m & wg & _ & H).
  apply bind_Ok in H. destruct H as (speed & wh & _ & H).
  apply bind_Ok in H. destruct H as (until & wi' & _ & H).
  apply ret_Ok in H. destruct H as [-> _]. reflexivity.
Qed.

(** X1: whatever goes wrong, [predict_traffic] raises an [HTTPException]
    with status 500 and nothing else. *)
Theorem predict_traffic_raises_only_500 (seg : string) (d : TrafficData) (w : World)
    (e : exn) :
  fst (predict_traffic seg d w) = Raise e ->
  exists detail, e = HTTPException 500 detail.
Proof.
  destruct (predict_traffic seg d w) as [r w'] eqn:E. simpl. intros ->.
  exact (predict_traffic_Raise seg d w e w' E).
Qed.

Lemma predict_traffic_raises_only_500_witness :
  exists detail,
    HTTPException 500 (DetailOf "Prediction failed: " (AttributeError "weather_impact")) =
    HTTPException 500 detail.
Proof.
  apply (predict_traffic_raises_only_500 "A1" Fixture.observation Fixture.serving).
  reflexivity.
Defined.

(** X2: the endpoint adds nothing to [predict_traffic]: every exception
    that reaches it is an [HTTPException] and is raised again as it is, so
    the "Internal server error" answer is never given. *)
Theorem predict_traffic_endpoint_passes_through (traffic_data : TrafficData) (w : World) :
  predict_traffic_endpoint traffic_data w =
  predict_traffic (segment_id traffic_data) traffic_data w.
Proof.
  unfold predict_traffic_endpoint, try_except.
  destruct (predict_traffic (segment_id traffic_data) traffic_data w) as [[p|e] w'] eqn:E;
    [reflexivity|].
  destruct (predict_traffic_Raise _ _ _ _ _ E) as [detail ->]. reflexivity.
Qed.

(** X3: of the observation, [predict_traffic] reads the attribute
    [weather_impact] and nothing else: two observations that agree on it get
    the same answer and leave the same world, whatever their speed,
    congestion, density and timestamp. *)
Theorem predict_traffic_reads_weather_only (seg : string) (d1 d2 : TrafficData)
    (w : World) :
  td_extra d1 !! "weather_impact" = td_extra d2 !! "weather_impact" ->
  predict_traffic seg d1 w = predict_traffic seg d2 w.
Proof.
  intros H.
  assert (Hg : getattr d1 "weather_impact" = getattr d2 "weather_impact").
  { rewrite !getattr_weather_impact_lookup, H. reflexivity. }
  unfold predict_traffic, predict_traffic_try, make_prediction.
  rewrite Hg. reflexivity.
Qed.

Lemma predict_traffic_reads_weather_only_witness :
  predict_traffic "A1" Fixture.with_weather Fixture.serving =
  predict_traffic "A1" Fixture.other_reading Fixture.serving.
Proof.
  apply (predict_traffic_reads_weather_only "A1" Fixture.with_weather
           Fixture.other_reading Fixture.serving).
  reflexivity.
Defined.

(** X4: when the cache write raises, as it does with a client that knows
    no keyword [ex], [predict_traffic] returns no prediction, whatever the
    observation is: the call ends in an HTTP 500 and Redis holds what it
    held. *)
Theorem no_prediction_when_write_raises (seg : string) (d : TrafficData) (w : World)
    (e : exn) :
  redis_fault w SETEX = Some e ->
  exists detail w',
    predict_traffic seg d w = (Raise (HTTPException 500 detail), w') /\
    keyspace w' = keyspace w.
Proof.
  intros He. unfold predict_traffic.
  destruct (traffic_model w) as [m|]; [|eexists; eexists; split; reflexivity].
  destruct (scaler w) as [s|]; [|eexists; eexists; split; reflexivity].
  unfold try_except, predict_traffic_try, bind.
  pose proof (make_prediction_keyspace seg d w) as [Hk Hf].
  destruct (make_prediction seg d w) as [[p|e0] w1]; simpl in Hk, Hf.
  - unfold redis_setex. rewrite Hf, He. simpl.
    eexists. eexists. split; [reflexivity | exact Hk].
  - simpl. eexists. eexists. split; [reflexivity | exact Hk].
Qed.

Lemma no_prediction_when_write_raises_witness :
  exists detail w',
    predict_traffic "A1" Fixture.with_weather Fixture.deployed =
      (Raise (HTTPException 500 detail), w') /\
    keyspace w' = keyspace Fixture.deployed.
Proof.
  apply (no_prediction_when_write_raises "A1" Fixture.with_weather Fixture.deployed
           TypeError).
  reflexivity.
Defined.

(** X5: a call that fails writes nothing: the globals, the Redis keys and
    the model files are as before; at most the clock was read. *)
Theorem predict_traffic_failure_writes_nothing (seg : string) (d : TrafficData)
    (w : World) (e : exn) (w' : World) :
  predict_traffic seg d w = (Raise e, w') -> later w w'.
Proof.
  unfold predict_traffic.
  destruct (traffic_model w) as [m|];
    [|intros H; inversion H; apply later_refl].
  destruct (scaler w) as [s|];
    [|intros H; inversion H; apply later_refl].
  unfold try_except, predict_traffic_try, bind.
  pose proof (make_prediction_world seg d w) as Hw.
  destruct (make_prediction seg d w) as [[p|e0] w1]; simpl in Hw; subst w1.
  - unfold redis_setex. simpl.
    destruct (redis_fault w SETEX); intros H; inversion H.
    apply datetime_now_later.
  - simpl. intros H. inversion H. apply datetime_now_later.
Qed.

Lemma predict_traffic_failure_writes_nothing_witness :
  later Fixture.cache_down (Fixture.world Fixture.setex_refused Fixture.history 1).
Proof.
  apply (predict_traffic_failure_writes_nothing "A1" Fixture.with_weather
           Fixture.cache_down
           (HTTPException 500 (DetailOf "Prediction failed: " RedisError))).
  reflexivity.
Defined.

(** X6: the prediction [predict_traffic] builds (lines 159-207) carries the
    segment it was asked for and the time of the call, not the timestamp of
    the observation; building it reads the clock once and changes nothing
    else. *)
Theorem prediction_is_stamped_now (seg : string) (d : TrafficData) (w : World)
    (p : TrafficPrediction) (w1 : World) :
  make_prediction seg d w = (Ok p, w1) ->
  p_segment_id p = seg /\ prediction_time p = clock w (ticks w) /\
  ticks w1 = S (ticks w) /\ later w w1.
Proof.
  intros Hmk.
  pose proof (make_prediction_time _ _ _ _ _ Hmk) as [Ht ->].
  apply make_prediction_Ok in Hmk. destruct Hmk as (Hseg & _).
  split; [exact Hseg|]. split; [exact Ht|].
  split; [reflexivity | apply datetime_now_later].
Qed.

Lemma prediction_is_stamped_now_witness :
  p_segment_id Fixture.forecast = "A1" /\
  prediction_time Fixture.forecast = clock Fixture.deployed (ticks Fixture.deployed) /\
  ticks (Fixture.world Fixture.keyword_rejected Fixture.history 1) =
    S (ticks Fixture.deployed) /\
  later Fixture.deployed (Fixture.world Fixture.keyword_rejected Fixture.history 1).
Proof.
  apply (prediction_is_stamped_now "A1" Fixture.other_reading Fixture.deployed
           Fixture.forecast (Fixture.world Fixture.keyword_rejected Fixture.history 1)).
  reflexivity.
Defined.

(** ** More about the historical congestion *)

Lemma length_Q_pos (qs : list Q) (q : Q) :
  (0 < inject_Z (Z.of_nat (length (q :: qs))))%Q.
Proof.
  change 0%Q with (inject_Z 0). rewrite <- Zlt_Qlt. simpl length. lia.
Qed.

Lemma sum_between (lo hi : Q) (qs : list Q) :
  Forall (fun q => lo <= q <= hi)%Q qs ->
  (lo * inject_Z (Z.of_nat (length qs)) <= fold_right Qplus 0 qs /\
   fold_right Qplus 0 qs <= hi * inject_Z (Z.of_nat (length qs)))%Q.
Proof.
  induction 1 as [|q qs [Hlo Hhi] _ [IHlo IHhi]].
  - simpl. change (inject_Z (Z.of_nat 0)) with 0%Q. split; lra.
  - simpl length. rewrite Nat2Z.inj_succ. unfold Z.succ. rewrite inject_Z_plus.
    change (inject_Z 1) with 1%Q. simpl fold_right. split; lra.
Qed.

Lemma arithmetic_mean_between (lo hi : Q) (q : Q) (qs : list Q) :
  Forall (fun q => lo <= q <= hi)%Q (q :: qs) ->
  (lo <= arithmetic_mean (q :: qs) <= hi)%Q.
Proof.
  intros H. destruct (sum_between lo hi _ H) as [Hlo Hhi].
  pose proof (length_Q_pos qs q) as Hpos.
  unfold arithmetic_mean. split.
  - apply Qle_shift_div_l; assumption.
  - apply Qle_shift_div_r; assumption.
Qed.

Lemma as_floats_not_numeric (v : value) (vs : list value) :
  In v vs -> as_float v = None -> as_floats vs = None.
Proof.
  induction vs as [|x xs IH]; intros Hin Hv; [destruct Hin|].
  simpl. destruct Hin as [->|Hin].
  - rewrite Hv. reflexivity.
  - rewrite (IH Hin Hv). destruct (as_float x); reflexivity.
Qed.

Lemma parsed_congestion_In (historical_data : list entry) (data : entry) (v : value) :
  In data historical_data -> parsed_congestion data = Some v ->
  In v (omap parsed_congestion historical_data).
Proof.
  intros Hin Hv. apply list_elem_of_In. apply list_elem_of_omap.
  exists data. split; [apply list_elem_of_In; exact Hin | exact Hv].
Qed.

(** X7: when the congestion values of the history are numbers between 0
    and 1, so is the historical congestion feature. *)
Theorem historical_congestion_in_unit (historical_data : list entry) :
  numeric_history historical_data ->
  Forall in_unit (congestion_numbers historical_data) ->
  exists q, avg_historical_congestion historical_data = Ok q /\ in_unit q.
Proof.
  intros Hnum Hunit.
  destruct (avg_historical_congestion_mean historical_data Hnum) as (q & Hq & Hmean).
  exists q. split; [exact Hq|]. unfold in_unit. rewrite Hmean.
  destruct (congestion_numbers historical_data) as [|x xs]; simpl.
  - unfold default_congestion. split; lra.
  - apply arithmetic_mean_between. exact Hunit.
Qed.

Lemma historical_congestion_in_unit_witness :
  exists q,
    avg_historical_congestion
      [Fixture.doc (2 # 10); Malformed; Fixture.doc 1; Fixture.doc 0] = Ok q /\
    in_unit q.
Proof.
  apply (historical_congestion_in_unit
           [Fixture.doc (2 # 10); Malformed; Fixture.doc 1; Fixture.doc 0]).
  - repeat (constructor; [vm_compute; eauto|]). constructor.
  - repeat (constructor; [unfold in_unit; split; discriminate|]). constructor.
Defined.

(** X8: a stored document is not skipped when its [congestion_factor] is
    there but is no number (a string, null): [np.mean] raises a [TypeError],
    whatever the other entries are. *)
Theorem historical_congestion_type_error (historical_data : list entry)
    (data : entry) (v : value) :
  In data historical_data ->
  parsed_congestion data = Some v -> as_float v = None ->
  avg_historical_congestion historical_data = Raise TypeError.
Proof.
  intros Hin Hv Hnone.
  pose proof (parsed_congestion_In _ _ _ Hin Hv) as Hvs.
  unfold avg_historical_congestion.
  destruct historical_data as [|x xs] eqn:E; [destruct Hin|].
  rewrite <- E in *. rewrite fold_append_congestion. simpl.
  destruct (omap parsed_congestion historical_data) as [|y ys] eqn:Ev; [destruct Hvs|].
  unfold np_mean. rewrite (as_floats_not_numeric v (y :: ys) Hvs Hnone). reflexivity.
Qed.

Lemma historical_congestion_type_error_witness :
  avg_historical_congestion
    [Fixture.doc (2 # 10); Document {[ "congestion_factor" := VStr "high" ]}] =
  Raise TypeError.
Proof.
  apply (historical_congestion_type_error
           [Fixture.doc (2 # 10); Document {[ "congestion_factor" := VStr "high" ]}]
           (Document {[ "congestion_factor" := VStr "high" ]}) (VStr "high")).
  - right. left. reflexivity.
  - reflexivity.
  - reflexivity.
Defined.

(** ** More about the derived metrics *)

Lemma speed_deficit (speed : Q) :
  ((base_speed - speed) / base_speed == 1 - speed * (1 # 50))%Q.
Proof. unfold base_speed. field. Qed.

(** X9: the congestion is 1 for a predicted speed of 0 or less, 0 from the
    base speed limit of 50 on, [1 - speed / 50] in between, and never grows
    with the speed. *)
Theorem congestion_of_speed_shape (speed speed' : Q) :
  ((speed <= 0 -> congestion_of_speed speed == 1) /\
   (0 <= speed <= 50 -> congestion_of_speed speed == 1 - speed / 50) /\
   (50 <= speed -> congestion_of_speed speed == 0) /\
   (speed <= speed' -> congestion_of_speed speed' <= congestion_of_speed speed))%Q.
Proof.
  pose proof (speed_deficit speed) as Hd. pose proof (speed_deficit speed') as Hd'.
  assert (Hdiv : (speed / 50 == speed * (1 # 50))%Q) by field.
  rewrite !congestion_of_speed_clamp. unfold clamp.
  repeat split; intros H; case_Qltb; lra.
Qed.

Lemma Qabs_half_case (c : Q) :
  ((c <= 1 # 2 /\ Qabs (c - (1 # 2)) == (1 # 2) - c) \/
   ((1 # 2) <= c /\ Qabs (c - (1 # 2)) == c - (1 # 2)))%Q.
Proof.
  destruct (Qlt_le_dec c (1 # 2)) as [H|H].
  - left. split; [lra|]. rewrite Qabs_neg; lra.
  - right. split; [lra|]. rewrite Qabs_pos; lra.
Qed.

(** X10: the confidence depends on the distance of the congestion to 0.5
    only; for a congestion between 0 and 1 it is [0.5 + c] up to 0.45, 0.95
    from 0.45 to 0.55 and [1.5 - c] from there on. *)
Theorem confidence_of_congestion_shape (c : Q) :
  (confidence_of_congestion c == confidence_of_congestion (1 - c) /\
   (0 <= c <= 45 # 100 -> confidence_of_congestion c == (1 # 2) + c) /\
   (45 # 100 <= c <= 55 # 100 -> confidence_of_congestion c == 95 # 100) /\
   (55 # 100 <= c <= 1 -> confidence_of_congestion c == (3 # 2) - c))%Q.
Proof.
  rewrite !confidence_of_congestion_clamp. unfold clamp.
  destruct (Qabs_half_case c) as [[Hc Ha]|[Hc Ha]];
    destruct (Qabs_half_case (1 - c)) as [[Hc' Ha']|[Hc' Ha']];
    repeat split; intros; case_Qltb; lra.
Qed.

Lemma congestion_of_speed_shape_witness :
  (congestion_of_speed (-3) == 1 /\
   congestion_of_speed 20 == 1 - 20 / 50 /\
   congestion_of_speed 72 == 0 /\
   congestion_of_speed 30 <= congestion_of_speed 20)%Q.
Proof.
  split; [apply (proj1 (congestion_of_speed_shape (-3) 0)); discriminate|].
  split; [apply (proj1 (proj2 (congestion_of_speed_shape 20 0))); split; discriminate|].
  split; [apply (proj1 (proj2 (proj2 (congestion_of_speed_shape 72 0)))); discriminate|].
  apply (proj2 (proj2 (proj2 (congestion_of_speed_shape 20 30)))). discriminate.
Defined.

Lemma confidence_of_congestion_shape_witness :
  (confidence_of_congestion (2 # 10) == (1 # 2) + (2 # 10) /\
   confidence_of_congestion (1 # 2) == 95 # 100 /\
   confidence_of_congestion (9 # 10) == (3 # 2) - (9 # 10))%Q.
Proof.
  split; [apply (proj1 (proj2 (confidence_of_congestion_shape (2 # 10)))); split; discriminate|].
  split; [apply (proj1 (proj2 (proj2 (confidence_of_congestion_shape (1 # 2))))); split; discriminate|].
  apply (proj2 (proj2 (proj2 (confidence_of_congestion_shape (9 # 10))))); split; discriminate.
Defined.

(** ** More about the batch endpoint *)

Lemma predict_batch_traffic_run (traffic_data_list : list TrafficData) (w : World) :
  predict_batch_traffic traffic_data_list w =
  match predict_each traffic_data_list w with
  | (Ok predictions, w') =>
      (Ok {| predictions := predictions; count := length traffic_data_list |}, w')
  | (Raise e, w') =>
      (Raise (HTTPException 500 (DetailOf "Batch prediction failed: " e)), w')
  end.
Proof.
  unfold predict_batch_traffic, try_except, bind.
  rewrite batch_loop_predict_each.
  destruct (predict_each traffic_data_list w) as [[ps|e] w'] eqn:E; [|reflexivity].
  simpl. unfold ret. rewrite (predict_each_length _ _ _ _ E). reflexivity.
Qed.

Lemma predict_each_first_raises (traffic_data : TrafficData) (rest : list TrafficData)
    (w : World) (e : exn) (w1 : World) :
  predict_traffic (segment_id traffic_data) traffic_data w = (Raise e, w1) ->
  predict_each (traffic_data :: rest) w = (Raise e, w1).
Proof. intros H. simpl. rewrite H. reflexivity. Qed.

(** X12: without a loaded pair the batch endpoint still answers an empty
    batch, with no prediction and count 0; any other batch is refused at its
    first observation with a 500 that wraps "ML model not loaded", and the
    world is untouched. *)
Theorem predict_batch_traffic_not_loaded (w : World) (traffic_data : TrafficData)
    (rest : list TrafficData) :
  traffic_model w = None \/ scaler w = None ->
  predict_batch_traffic [] w = (Ok {| predictions := []; count := 0 |}, w) /\
  predict_batch_traffic (traffic_data :: rest) w =
    (Raise (HTTPException 500
              (DetailOf "Batch prediction failed: "
                 (HTTPException 500 (Detail "ML model not loaded")))), w).
Proof.
  intros H. split; [reflexivity|].
  rewrite predict_batch_traffic_run.
  rewrite (predict_each_first_raises traffic_data rest w
             (HTTPException 500 (Detail "ML model not loaded")) w); [reflexivity|].
  apply predict_traffic_not_loaded. exact H.
Qed.

Lemma predict_batch_traffic_not_loaded_witness :
  let w := Fixture.starting Missing Missing in
  predict_batch_traffic [] w = (Ok {| predictions := []; count := 0 |}, w) /\
  predict_batch_traffic [Fixture.with_weather; Fixture.observation] w =
    (Raise (HTTPException 500
              (DetailOf "Batch prediction failed: "
                 (HTTPException 500 (Detail "ML model not loaded")))), w).
Proof.
  apply (predict_batch_traffic_not_loaded (Fixture.starting Missing Missing)
           Fixture.with_weather [Fixture.observation]).
  left. reflexivity.
Defined.

(** X13: a batch that starts with a [TrafficData] proper fails at that
    first observation: the clock is read once, nothing is cached and the
    observations behind it are not looked at. *)
Theorem predict_batch_traffic_stops_at_first (w : World) (traffic_data : TrafficData)
    (rest : list TrafficData) (m : Estimator) (s : Scaler) :
  traffic_model w = Some m -> scaler w = Some s -> plain traffic_data ->
  exists cause,
    predict_batch_traffic (traffic_data :: rest) w =
      (Raise (HTTPException 500
                (DetailOf "Batch prediction failed: "
                   (HTTPException 500 (DetailOf "Prediction failed: " cause)))),
       snd (datetime_now w)).
Proof.
  intros Hm Hs Hd.
  assert (Hnone : td_extra traffic_data !! "weather_impact" = None).
  { rewrite Hd. apply lookup_empty. }
  pose proof (make_prediction_world (segment_id traffic_data) traffic_data w) as Hw.
  destruct (make_prediction (segment_id traffic_data) traffic_data w) as [[p|e] w1] eqn:Hmk.
  - apply make_prediction_Ok in Hmk. destruct Hmk as (_ & _ & _ & _ & [v Hv] & _).
    rewrite Hnone in Hv. discriminate Hv.
  - simpl in Hw. subst w1. exists e.
    rewrite predict_batch_traffic_run.
    rewrite (predict_each_first_raises traffic_data rest w
               (HTTPException 500 (DetailOf "Prediction failed: " e))
               (snd (datetime_now w))); [reflexivity|].
    rewrite (predict_traffic_loaded _ _ _ m s Hm Hs).
    rewrite (try_except_caught _ _ _ w e (snd (datetime_now w))); [reflexivity | | reflexivity].
    unfold predict_traffic_try. apply bind_run_Raise. exact Hmk.
Qed.

Lemma predict_batch_traffic_stops_at_first_witness :
  exists cause,
    predict_batch_traffic [Fixture.observation; Fixture.with_weather] Fixture.serving =
      (Raise (HTTPException 500
                (DetailOf "Batch prediction failed: "
                   (HTTPException 500 (DetailOf "Prediction failed: " cause)))),
       snd (datetime_now Fixture.serving)).
Proof.
  apply (predict_batch_traffic_stops_at_first Fixture.serving Fixture.observation
           [Fixture.with_weather] Fixture.speed_model Fixture.plain_scaler);
    reflexivity.
Defined.

(** X14: when the cache write raises, as it does with a client that knows
    no keyword [ex], a batch that is not empty fails at its first
    observation, whatever that observation is: the clock is read once,
    nothing is cached and the observations behind it are not looked at. *)
Theorem predict_batch_traffic_fails_when_write_raises (w : World)
    (traffic_data : TrafficData) (rest : list TrafficData) (m : Estimator) (s : Scaler)
    (e : exn) :
  traffic_model w = Some m -> scaler w = Some s ->
  redis_fault w SETEX = Some e ->
  exists cause,
    predict_batch_traffic (traffic_data :: rest) w =
      (Raise (HTTPException 500
                (DetailOf "Batch prediction failed: "
                   (HTTPException 500 (DetailOf "Prediction failed: " cause)))),
       snd (datetime_now w)).
Proof.
  intros Hm Hs He.
  assert (Hx : exists cause,
             predict_traffic_try (segment_id traffic_data) traffic_data w =
             (Raise cause, snd (datetime_now w))).
  { unfold predict_traffic_try, bind.
    pose proof (make_prediction_world (segment_id traffic_data) traffic_data w) as Hw.
    destruct (make_prediction (segment_id traffic_data) traffic_data w) as [[p|e0] w1];
      simpl in Hw; subst w1.
    - unfold redis_setex. simpl. rewrite He. exists e. reflexivity.
    - exists e0. reflexivity. }
  destruct Hx as [cause Hx]. exists cause.
  rewrite predict_batch_traffic_run.
  rewrite (predict_each_first_raises traffic_data rest w
             (HTTPException 500 (DetailOf "Prediction failed: " cause))
             (snd (datetime_now w))); [reflexivity|].
  rewrite (predict_traffic_loaded _ _ _ m s Hm Hs).
  rewrite (try_except_caught _ _ _ w cause (snd (datetime_now w)));
    [reflexivity | exact Hx | reflexivity].
Qed.

Lemma predict_batch_traffic_fails_when_write_raises_witness :
  exists cause,
    predict_batch_traffic [Fixture.with_weather; Fixture.other_reading] Fixture.deployed =
      (Raise (HTTPException 500
                (DetailOf "Batch prediction failed: "
                   (HTTPException 500 (DetailOf "Prediction failed: " cause)))),
       snd (datetime_now Fixture.deployed)).
Proof.
  apply (predict_batch_traffic_fails_when_write_raises Fixture.deployed
           Fixture.with_weather [Fixture.other_reading]
           Fixture.speed_model Fixture.plain_scaler TypeError); reflexivity.
Defined.

(** ** [get_model_info] *)

(** X15: [GET /model/info] answers 404 when no estimator is set and reads
    nothing then; any answer it gives has [model_loaded] true, says whether
    the scaler is set, and gives the time of the request as [last_training]. *)
Theorem get_model_info_answers (w : World) :
  (traffic_model w = None ->
   get_model_info w = (Raise (HTTPException 404 (Detail "No model loaded")), w)) /\
  (forall info w',
     get_model_info w = (Ok info, w') ->
     model_loaded info = true /\
     (scaler_loaded info = true <-> is_Some (scaler w)) /\
     last_training info = clock w (ticks w) /\
     later w w').
Proof.
  split.
  - intros H. unfold get_model_info. rewrite H. reflexivity.
  - intros info w'. unfold get_model_info.
    destruct (traffic_model w) as [m|]; [|intros H; discriminate H].
    unfold bind, datetime_now, ret. intros H. inversion H; subst; clear H. simpl.
    split; [reflexivity|]. split; [|split; [reflexivity|]].
    + destruct (scaler w); split; intros H; try reflexivity; try discriminate H.
      * eexists. reflexivity.
      * destruct H as [x Hx]. discriminate Hx.
    + unfold later. simpl. repeat split.
Qed.

Lemma get_model_info_answers_witness :
  get_model_info (Fixture.starting Missing Missing) =
    (Raise (HTTPException 404 (Detail "No model loaded")), Fixture.starting Missing Missing) /\
  (let info := {| model_type := "RandomForestRegressor";
                  features := ["hour_of_day"; "day_of_week"; "weather_impact";
                               "base_speed_limit"; "historical_congestion"];
                  target := "current_speed";
                  model_loaded := true;
                  scaler_loaded := true;
                  last_training := Fixture.morning 0 |} in
   model_loaded info = true /\
   (scaler_loaded info = true <-> is_Some (scaler Fixture.serving)) /\
   last_training info = clock Fixture.serving (ticks Fixture.serving) /\
   later Fixture.serving (Fixture.world Fixture.no_fault Fixture.history 1)).
Proof.
  split.
  - apply (proj1 (get_model_info_answers (Fixture.starting Missing Missing))).
    reflexivity.
  - apply (proj2 (get_model_info_answers Fixture.serving)). reflexivity.
Defined.

(** X16: an estimator without a scaler is enough for [GET /model/info] to
    answer, with [scaler_loaded] false, while every prediction is refused. *)
Theorem model_info_without_scaler (w : World) (m : Estimator) (seg : string)
    (d : TrafficData) :
  traffic_model w = Some m -> scaler w = None ->
  (exists info w', get_model_info w = (Ok info, w') /\
                   model_loaded info = true /\ scaler_loaded info = false) /\
  predict_traffic seg d w = (Raise (HTTPException 500 (Detail "ML model not loaded")), w).
Proof.
  intros Hm Hs. split.
  - unfold get_model_info. rewrite Hm, Hs.
    eexists. eexists. split; [reflexivity|]. split; reflexivity.
  - apply predict_traffic_not_loaded. right. exact Hs.
Qed.

Lemma model_info_without_scaler_witness :
  (exists info w', get_model_info Fixture.half_loaded = (Ok info, w') /\
                   model_loaded info = true /\ scaler_loaded info = false) /\
  predict_traffic "A1" Fixture.with_weather Fixture.half_loaded =
    (Raise (HTTPException 500 (Detail "ML model not loaded")), Fixture.half_loaded).
Proof.
  apply (model_info_without_scaler Fixture.half_loaded Fixture.speed_model "A1"
           Fixture.with_weather); reflexivity.
Defined.

(** ** More about startup and training *)

(** X17: with both files in the model directory, startup sets the two
    globals to what the files hold and does nothing else: no training, no
    write, no clock reading; a second run changes nothing. *)
Theorem startup_loads_stored_pair (sk : Sklearn) (w : World) (m : Estimator) (s : Scaler) :
  model_pkl w = Stored m -> scaler_pkl w = Stored s ->
  exists w',
    initialize_model sk w = (Ok tt, w') /\
    traffic_model w' = Some m /\ scaler w' = Some s /\
    model_pkl w' = Stored m /\ scaler_pkl w' = Stored s /\
    keyspace w' = keyspace w /\ ticks w' = ticks w /\
    initialize_model sk w' = (Ok tt, w').
Proof.
  intros Hm Hs. exists (install m s w).
  split; [apply initialize_model_both_files; assumption|].
  unfold install. simpl. repeat split; try assumption.
  apply (initialize_model_both_files sk (install m s w) m s); assumption.
Qed.

Lemma startup_loads_stored_pair_witness :
  exists w',
    initialize_model Fixture.sklearn
      (Fixture.starting (Stored Fixture.speed_model) (Stored Fixture.plain_scaler)) =
      (Ok tt, w') /\
    traffic_model w' = Some Fixture.speed_model /\ scaler w' = Some Fixture.plain_scaler /\
    model_pkl w' = Stored Fixture.speed_model /\ scaler_pkl w' = Stored Fixture.plain_scaler /\
    keyspace w' =
      keyspace (Fixture.starting (Stored Fixture.speed_model) (Stored Fixture.plain_scaler)) /\
    ticks w' =
      ticks (Fixture.starting (Stored Fixture.speed_model) (Stored Fixture.plain_scaler)) /\
    initialize_model Fixture.sklearn w' = (Ok tt, w').
Proof.
  apply (startup_loads_stored_pair Fixture.sklearn
           (Fixture.starting (Stored Fixture.speed_model) (Stored Fixture.plain_scaler))
           Fixture.speed_model Fixture.plain_scaler); reflexivity.
Defined.

(** X18: what a first startup trains and drops, a restart finds: when the
    estimator's file is missing and training succeeds, running
    [initialize_model] again on the world it leaves sets both globals to the
    trained pair. *)
Theorem restart_loads_trained_pair (sk : Sklearn) (w : World) (m : Estimator) (s : Scaler) :
  model_pkl w = Missing -> sample_fit sk = Ok (m, s) ->
  exists w1 w2,
    initialize_model sk w = (Ok tt, w1) /\
    traffic_model w1 = traffic_model w /\ scaler w1 = scaler w /\
    initialize_model sk w1 = (Ok tt, w2) /\
    traffic_model w2 = Some m /\ scaler w2 = Some s.
Proof.
  intros Hfile Hfit.
  exists (persist m s w), (install m s (persist m s w)).
  split.
  - rewrite (initialize_model_no_model_file sk w Hfile).
    unfold bind. rewrite train_new_model_run, Hfit. reflexivity.
  - split; [reflexivity|]. split; [reflexivity|].
    split; [apply initialize_model_both_files; reflexivity|].
    split; reflexivity.
Qed.

Lemma restart_loads_trained_pair_witness :
  exists w1 w2,
    initialize_model Fixture.sklearn (Fixture.starting Missing Missing) = (Ok tt, w1) /\
    traffic_model w1 = traffic_model (Fixture.starting Missing Missing) /\
    scaler w1 = scaler (Fixture.starting Missing Missing) /\
    initialize_model Fixture.sklearn w1 = (Ok tt, w2) /\
    traffic_model w2 = Some Fixture.fitted_model /\
    scaler w2 = Some Fixture.plain_scaler.
Proof.
  apply (restart_loads_trained_pair Fixture.sklearn (Fixture.starting Missing Missing)
           Fixture.fitted_model Fixture.plain_scaler);
    [reflexivity | vm_compute; reflexivity].
Defined.

(** X19: [train_new_model] assigns no global and touches neither Redis nor
    the clock; when it returns a pair, that pair is the one fitted on the
    generated samples and the one the two files hold. *)
Theorem train_new_model_effects (sk : Sklearn) (w : World) :
  let r := train_new_model sk w in
  traffic_model (snd r) = traffic_model w /\ scaler (snd r) = scaler w /\
  keyspace (snd r) = keyspace w /\ ticks (snd r) = ticks w /\
  forall m s,
    fst r = Ok (m, s) ->
    sample_fit sk = Ok (m, s) /\
    model_pkl (snd r) = Stored m /\ scaler_pkl (snd r) = Stored s.
Proof.
  simpl. rewrite train_new_model_run.
  destruct (sample_fit sk) as [[m0 s0]|e]; simpl.
  - split; [reflexivity|]. split; [reflexivity|]. split; [reflexivity|].
    split; [reflexivity|]. intros m s H. inversion H; subst.
    split; [reflexivity|]. split; reflexivity.
  - split; [reflexivity|]. split; [reflexivity|]. split; [reflexivity|].
    split; [reflexivity|]. intros m s H. discriminate H.
Qed.

Lemma train_new_model_effects_witness :
  sample_fit Fixture.sklearn = Ok (Fixture.fitted_model, Fixture.plain_scaler) /\
  model_pkl (snd (train_new_model Fixture.sklearn (Fixture.starting Missing Missing))) =
    Stored Fixture.fitted_model /\
  scaler_pkl (snd (train_new_model Fixture.sklearn (Fixture.starting Missing Missing))) =
    Stored Fixture.plain_scaler.
Proof.
  apply (train_new_model_effects Fixture.sklearn (Fixture.starting Missing Missing)).
  vm_compute. reflexivity.
Defined.

(** ** More about retraining *)

Lemma train_model_endpoint_run (sk : Sklearn) (w : World) :
  train_model_endpoint sk w =
  match collect_training_data w with
  | (Raise e, w1) =>
      (Raise (HTTPException 500 (DetailOf "Model training failed: " e)), w1)
  | (Ok training_data, w1) =>
      if (length training_data <? 100)%nat
      then (Raise (HTTPException 500
                     (DetailOf "Model training failed: "
                        (HTTPException 400
                           (Detail "Insufficient training data (need at least 100 samples)")))),
            w1)
      else match sample_fit sk with
           | Raise e =>
               (Raise (HTTPException 500 (DetailOf "Model training failed: " e)), w1)
           | Ok (m, s) =>
               (Ok {| message := "Model retrained successfully";
                      samples_used := length training_data |},
                install m s (persist m s w1))
           end
  end.
Proof.
  unfold train_model_endpoint, try_except, bind.
  destruct (collect_training_data w) as [[td|e] w1]; [|reflexivity].
  destruct (length td <? 100)%nat; [reflexivity|].
  rewrite train_new_model_run.
  destruct (sample_fit sk) as [[m s]|e]; reflexivity.
Qed.

(** X20: a retrain that fails always answers 500 "Model training failed",
    never 400, and assigns no global and writes nothing to Redis. *)
Theorem failed_retrain_keeps_the_pair (sk : Sklearn) (w : World) (e : exn) :
  fst (train_model_endpoint sk w) = Raise e ->
  (exists cause, e = HTTPException 500 (DetailOf "Model training failed: " cause)) /\
  traffic_model (snd (train_model_endpoint sk w)) = traffic_model w /\
  scaler (snd (train_model_endpoint sk w)) = scaler w /\
  keyspace (snd (train_model_endpoint sk w)) = keyspace w.
Proof.
  rewrite train_model_endpoint_run.
  pose proof (collect_training_data_later w) as (Gm & Gs & Gk & _).
  destruct (collect_training_data w) as [[td|e0] w1]; simpl in Gm, Gs, Gk.
  - destruct (length td <? 100)%nat.
    + simpl. intros H. inversion H; subst.
      split; [eexists; reflexivity | repeat split; assumption].
    + destruct (sample_fit sk) as [[m s]|e1]; simpl; intros H; [discriminate H|].
      inversion H; subst. split; [eexists; reflexivity | repeat split; assumption].
  - simpl. intros H. inversion H; subst.
    split; [eexists; reflexivity | repeat split; assumption].
Qed.

Lemma failed_retrain_keeps_the_pair_witness :
  (exists cause,
     HTTPException 500
       (DetailOf "Model training failed: "
          (HTTPException 400
             (Detail "Insufficient training data (need at least 100 samples)"))) =
     HTTPException 500 (DetailOf "Model training failed: " cause)) /\
  traffic_model (snd (train_model_endpoint Fixture.sklearn (Fixture.stored 99))) =
    traffic_model (Fixture.stored 99) /\
  scaler (snd (train_model_endpoint Fixture.sklearn (Fixture.stored 99))) =
    scaler (Fixture.stored 99) /\
  keyspace (snd (train_model_endpoint Fixture.sklearn (Fixture.stored 99))) =
    keyspace (Fixture.stored 99).
Proof.
  apply (failed_retrain_keeps_the_pair Fixture.sklearn (Fixture.stored 99)).
  vm_compute. reflexivity.
Defined.

(** X21: after a retrain that succeeds, the pair in the two globals is the
    pair in the two files; the answer counts at least 100 samples and Redis
    is as before. *)
Theorem retrain_installs_what_it_persists (sk : Sklearn) (w : World)
    (resp : TrainResponse) :
  fst (train_model_endpoint sk w) = Ok resp ->
  let w' := snd (train_model_endpoint sk w) in
  (100 <= samples_used resp)%nat /\
  message resp = "Model retrained successfully" /\
  keyspace w' = keyspace w /\
  exists m s,
    traffic_model w' = Some m /\ model_pkl w' = Stored m /\
    scaler w' = Some s /\ scaler_pkl w' = Stored s.
Proof.
  rewrite train_model_endpoint_run.
  pose proof (collect_training_data_later w) as (_ & _ & Hk & _).
  destruct (collect_training_data w) as [[td|e0] w1]; simpl in Hk;
    [|intros H; discriminate H].
  destruct (Nat.ltb_spec (length td) 100) as [_|Hge]; [intros H; discriminate H|].
  destruct (sample_fit sk) as [[m s]|e1]; intros H; [|discriminate H].
  inversion H; subst. simpl.
  split; [exact Hge|]. split; [reflexivity|]. split; [exact Hk|].
  exists m, s. repeat split.
Qed.

Lemma retrain_installs_what_it_persists_witness :
  let w' := snd (train_model_endpoint Fixture.sklearn (Fixture.stored 100)) in
  (100 <= 100)%nat /\
  "Model retrained successfully" = "Model retrained successfully" /\
  keyspace w' = keyspace (Fixture.stored 100) /\
  exists m s,
    traffic_model w' = Some m /\ model_pkl w' = Stored m /\
    scaler w' = Some s /\ scaler_pkl w' = Stored s.
Proof.
  apply (retrain_installs_what_it_persists Fixture.sklearn (Fixture.stored 100)
           {| message := "Model retrained successfully"; samples_used := 100 |}).
  vm_compute. reflexivity.
Defined.

(** ** More about the training rows *)

Lemma collect_entries_run (data_list : list entry) (training_data : list TrainingRow)
    (w : World) :
  exists rows w',
    collect_entries data_list training_data w = (Ok (training_data ++ rows)%list, w') /\
    length rows = documents data_list.
Proof.
  revert training_data w.
  induction data_list as [|data rest IH]; intros training_data w.
  - exists [], w. simpl. unfold ret. rewrite app_nil_r. split; reflexivity.
  - destruct data as [|d|v]; simpl.
    + exact (IH training_data w).
    + unfold bind, datetime_now. simpl.
      match goal with
      | |- context [collect_entries rest (training_data ++ [?row])%list ?w2] =>
          destruct (IH (training_data ++ [row])%list w2) as (rows & w' & Hrun & Hlen);
          exists (row :: rows), w'
      end.
      rewrite Hrun, <- app_assoc. simpl. split; [reflexivity | lia].
    + unfold bind, datetime_now. simpl.
      match goal with
      | |- context [collect_entries rest training_data ?w2] =>
          destruct (IH training_data w2) as (rows & w' & Hrun & Hlen);
          exists rows, w'
      end.
      rewrite Hrun. split; [reflexivity | exact Hlen].
Qed.

(** X22: gathering the rows of one history list never fails: an entry that
    does not load, or loads as something else than a dict, is skipped; the
    rows already gathered are kept, one row is added per document, each with
    a speed limit of 50, and the clock is read twice per entry that loads. *)
Theorem collect_entries_counts_documents (data_list : list entry)
    (training_data : list TrainingRow) (w : World) :
  exists rows w',
    collect_entries data_list training_data w = (Ok (training_data ++ rows)%list, w') /\
    length rows = documents data_list /\
    ticks w' = (ticks w + 2 * well_formed data_list)%nat /\
    Forall (fun row => row_base_speed_limit row = 50%Q) rows.
Proof.
  revert training_data w.
  induction data_list as [|data rest IH]; intros training_data w.
  - exists [], w. simpl. unfold ret. rewrite app_nil_r.
    repeat split; [lia | constructor].
  - destruct data as [|d|v]; simpl.
    + exact (IH training_data w).
    + unfold bind, datetime_now. simpl.
      match goal with
      | |- context [collect_entries rest (training_data ++ [?row])%list ?w2] =>
          destruct (IH (training_data ++ [row])%list w2) as (rows & w' & Hrun & Hlen & Ht & Hall);
          exists (row :: rows), w'
      end.
      rewrite Hrun, <- app_assoc. simpl in *.
      repeat split; [lia | lia | constructor; [reflexivity | exact Hall]].
    + unfold bind, datetime_now. simpl.
      match goal with
      | |- context [collect_entries rest training_data ?w2] =>
          destruct (IH training_data w2) as (rows & w' & Hrun & Hlen & Ht & Hall);
          exists rows, w'
      end.
      rewrite Hrun. simpl in *. repeat split; [lia | lia | exact Hall].
Qed.

Lemma collect_keys_count (keys : list string) (training_data td : list TrainingRow)
    (w w' : World) :
  collect_keys keys training_data w = (Ok td, w') ->
  length td =
    (length training_data +
     list_sum (map (fun key => documents (list_at (keyspace w) key)) keys))%nat.
Proof.
  revert training_data w.
  induction keys as [|key rest IH]; intros training_data w; simpl.
  - unfold ret. intros H. inversion H; subst. lia.
  - unfold bind.
    destruct (redis_lrange key w) as [[data_list|e] w1] eqn:Hl; [|intros H; discriminate H].
    assert (Hlist : data_list = list_at (keyspace w) key).
    { unfold redis_lrange in Hl. unfold list_at.
      destruct (redis_fault w LRANGE); [discriminate Hl|].
      destruct (keyspace w !! key) as [[l|p ex]|]; inversion Hl; reflexivity. }
    apply redis_lrange_Ok in Hl. subst w1.
    destruct (collect_entries_run data_list training_data w)
      as (rows & w2 & Hrun & Hlen).
    pose proof (collect_entries_later data_list training_data w) as (_ & _ & Hk & _).
    rewrite Hrun in Hk |- *. simpl in Hk.
    intros H. apply IH in H. rewrite H, Hk, length_app, Hlen, Hlist. lia.
Qed.

(** X23: the number of samples a retrain counts is the number of stored
    entries that load as documents, over all the keys the scan returns;
    malformed entries and the cached predictions do not count. *)
Theorem collect_training_data_counts_documents (w : World) (keys : list string)
    (training_data : list TrainingRow) :
  fst (redis_scan_iter "historical_traffic:" w) = Ok keys ->
  fst (collect_training_data w) = Ok training_data ->
  length training_data =
    list_sum (map (fun key => documents (list_at (keyspace w) key)) keys) /\
  Forall (fun key => String.prefix "historical_traffic:" key = true) keys.
Proof.
  unfold collect_training_data, bind, redis_scan_iter.
  destruct (redis_fault w SCAN); [intros H; discriminate H|].
  simpl. intros Hkeys. inversion Hkeys as [Hk]. rewrite Hk.
  intros H. split.
  - destruct (collect_keys keys [] w) as [[td|e] w'] eqn:E; simpl in H; [|discriminate H].
    inversion H; subst td. apply (collect_keys_count keys [] training_data w w' E).
  - rewrite <- Hk. apply Forall_forall. intros key Hin.
    apply list_elem_of_filter in Hin. tauto.
Qed.

Lemma collect_training_data_counts_documents_witness :
  let row c := {| row_hour_of_day := 8; row_day_of_week := 3;
                  row_weather_impact := VInt 0; row_base_speed_limit := 50;
                  row_historical_congestion := VFloat c;
                  row_current_speed := VFloat 25 |} in
  length [row (2 # 10); row (4 # 10); row (6 # 10)] =
    list_sum (map (fun key => documents (list_at (keyspace Fixture.served) key))
                ["historical_traffic:A1"]) /\
  Forall (fun key => String.prefix "historical_traffic:" key = true)
    ["historical_traffic:A1"].
Proof.
  apply (collect_training_data_counts_documents Fixture.served).
  - vm_compute. reflexivity.
  - vm_compute. reflexivity.
Defined.

(** ** The generated samples *)

(** X24: the target generated for a sample is 0.7 times what it would be
    outside the rush hours (7 to 9 and 16 to 19), 1.2 times what it would be
    on a weekday when the day is 5 or 6, and, for features in the ranges they
    are drawn from, it lies between 7.35 and 96. *)
Theorem sample_speed_shape (hour_of_day day_of_week : Z)
    (weather_impact base_speed_limit historical_congestion : Q) :
  let quiet := (base_speed_limit * (1 - historical_congestion * (1 # 2)) *
                (1 - weather_impact * (3 # 10)))%Q in
  let rush := ((7 <=? hour_of_day) && (hour_of_day <=? 9)) ||
              ((16 <=? hour_of_day) && (hour_of_day <=? 19)) in
  let weekend := 5 <=? day_of_week in
  (sample_speed (hour_of_day, day_of_week, weather_impact, base_speed_limit,
                 historical_congestion) ==
   quiet * (if rush then 7 # 10 else 1) * (if weekend then 12 # 10 else 1))%Q /\
  ((0 <= weather_impact <= 1)%Q -> (30 <= base_speed_limit <= 80)%Q ->
   (0 <= historical_congestion <= 1)%Q ->
   ((735 # 100) <=
    sample_speed (hour_of_day, day_of_week, weather_impact, base_speed_limit,
                  historical_congestion) <= 96)%Q).
Proof.
  intros quiet rush weekend. subst quiet. unfold sample_speed.
  fold rush. fold weekend.
  split.
  - destruct rush, weekend; ring.
  - intros Hw Hb Hc.
    set (u := (1 - historical_congestion * (1 # 2))%Q).
    set (v := (1 - weather_impact * (3 # 10))%Q).
    assert (Hu : ((1 # 2) <= u <= 1)%Q) by (subst u; split; lra).
    assert (Hv : ((7 # 10) <= v <= 1)%Q) by (subst v; split; lra).
    assert (Hbu : (15 <= base_speed_limit * u <= 80)%Q) by (split; nra).
    assert (Hbuv : ((105 # 10) <= base_speed_limit * u * v <= 80)%Q) by (split; nra).
    destruct rush, weekend; split; nra.
Qed.

Lemma sample_speed_shape_witness :
  ((735 # 100) <= sample_speed (8%Z, 2%Z, 1 # 5, 50, 4 # 10))%Q /\
  (sample_speed (8%Z, 2%Z, 1 # 5, 50, 4 # 10) <= 96)%Q.
Proof.
  apply (proj2 (sample_speed_shape 8 2 (1 # 5) 50 (4 # 10))); split; discriminate.
Defined.
